(** * The code-review swarm: reviewer dispatch and review aggregation

    A shallow embedding of [src/code_review_swarm.py]: the class
    [CodeReviewSwarm] with [_get_agent_review], [review_code] and
    [_aggregate_reviews], and the Python operations they rely on; and of
    the two field validators of [CodeReviewRequest] in [src/api.py].

    Python text is modelled by [string], one [ascii] per code point, which
    covers the code points below 256.  Python integers are [Z].  Binary
    floating-point numbers are outside the model. *)

From Stdlib Require Import String Ascii List ZArith Bool Lia DecimalString.
From Stdlib Require Import Permutation OrderedTypeEx.
Import ListNotations.

Local Open Scope string_scope.
Local Open Scope Z_scope.

(** ** Python text operations *)

Module PyStr.

(** [c.lower()] on one code point below 256: the ASCII capitals and the
    Latin-1 capitals (U+00C0 to U+00DE without the multiplication sign
    U+00D7) move up by 32; every other code point is its own lower case. *)
Definition lower_char (c : ascii) : ascii :=
  let n := N.to_nat (N_of_ascii c) in
  if ((65 <=? n) && (n <=? 90))%nat then ascii_of_nat (n + 32)
  else if ((192 <=? n) && (n <=? 222) && negb (n =? 215))%nat
       then ascii_of_nat (n + 32)
       else c.

(** [s.lower()] *)
Fixpoint lower (s : string) : string :=
  match s with
  | EmptyString => EmptyString
  | String c s' => String (lower_char c) (lower s')
  end.

(** [len(s)] *)
Definition len (s : string) : Z := Z.of_nat (String.length s).

(** [s.startswith(sub)] *)
Fixpoint startswith (s sub : string) : bool :=
  match sub, s with
  | EmptyString, _ => true
  | String a sub', String b s' => Ascii.eqb a b && startswith s' sub'
  | String _ _, EmptyString => false
  end.

(** [s.find(sub)]: the lowest index where [sub] occurs in [s], or [-1]. *)
Fixpoint find (s sub : string) : Z :=
  if startswith s sub then 0
  else match s with
       | EmptyString => -1
       | String _ s' =>
           let r := find s' sub in
           if r <? 0 then -1 else r + 1
       end.

(** [sub in s] *)
Definition contains (sub s : string) : bool := 0 <=? find s sub.

(** How a slice bound is read against a text of length [n]: a negative
    bound counts from the end, and every bound is clamped to [0..n]. *)
Definition clamp (n i : Z) : Z :=
  if i <? 0 then Z.max 0 (i + n) else Z.min i n.

(** [s[a:b]] *)
Definition slice (s : string) (a b : Z) : string :=
  let a' := clamp (len s) a in
  let b' := clamp (len s) b in
  String.substring (Z.to_nat a') (Z.to_nat (b' - a')) s.

(** [s[a:]] *)
Definition slice_from (s : string) (a : Z) : string := slice s a (len s).

Definition newline : ascii := ascii_of_nat 10.

(** [s.split("\n")]: the pieces between line feeds; never an empty list. *)
Fixpoint split_lines (s : string) : list string :=
  match s with
  | EmptyString => [EmptyString]
  | String c s' =>
      if Ascii.eqb c newline then EmptyString :: split_lines s'
      else match split_lines s' with
           | l :: ls => String c l :: ls
           | [] => [String c EmptyString]
           end
  end.

(** [c.isspace()] for a code point below 256. *)
Definition isspace (c : ascii) : bool :=
  let n := N.to_nat (N_of_ascii c) in
  (((9 <=? n) && (n <=? 13)) || ((28 <=? n) && (n <=? 32))
   || (n =? 133) || (n =? 160))%nat.

Fixpoint lstrip (s : string) : string :=
  match s with
  | EmptyString => EmptyString
  | String c s' => if isspace c then lstrip s' else s
  end.

Fixpoint rstrip (s : string) : string :=
  match s with
  | EmptyString => EmptyString
  | String c s' =>
      match rstrip s' with
      | EmptyString => if isspace c then EmptyString else String c EmptyString
      | r => String c r
      end
  end.

(** [s.strip()] *)
Definition strip (s : string) : string := rstrip (lstrip s).

(** Truth value of a text: empty is false. *)
Definition nonempty (s : string) : bool :=
  match s with EmptyString => false | _ => true end.

End PyStr.

(** ** Python values *)

(** The values a reviewer can hand back: what [json.loads] produces (without
    floats), which are also the values a reviewer object returns directly.
    A [dict] is kept as its items in insertion order; a Python dict has
    pairwise distinct keys, and the keys here are text, as in JSON. *)
#[warnings="-register-all"]
Inductive value : Type :=
| VNone
| VBool (b : bool)
| VInt (n : Z)
| VStr (s : string)
| VList (l : list value)
| VDict (d : list (string * value)).

Definition dict : Type := list (string * value).

(** The exceptions the aggregation code can meet. *)
Inductive exn : Type :=
| AttributeError   (* a method looked up on a value that has none of that name *)
| TypeError.       (* iterating a non-iterable, hashing a list or a dict *)

(** The outcome of an expression: a value, or a raised exception. *)
Inductive res (A : Type) : Type :=
| Ok (a : A)
| Raise (e : exn).
Arguments Ok {A} a.
Arguments Raise {A} e.

Module Py.

(** The value stored under [key], if any. *)
Fixpoint dict_lookup (d : dict) (key : string) : option value :=
  match d with
  | [] => None
  | (k, v) :: d' => if String.eqb k key then Some v else dict_lookup d' key
  end.

(** [d.get(key, default)] on a dict. *)
Definition dict_get (d : dict) (key : string) (default : value) : value :=
  match dict_lookup d key with
  | Some v => v
  | None => default
  end.

(** [x.get(key, default)] on any value: only a dict has the method. *)
Definition get (x : value) (key : string) (default : value) : res value :=
  match x with
  | VDict d => Ok (dict_get d key default)
  | _ => Raise AttributeError
  end.

(** [x.lower()] on any value: only text has the method. *)
Definition lower (x : value) : res string :=
  match x with
  | VStr s => Ok (PyStr.lower s)
  | _ => Raise AttributeError
  end.

Fixpoint chars (s : string) : list value :=
  match s with
  | EmptyString => []
  | String c s' => VStr (String c EmptyString) :: chars s'
  end.

(** What [for x in v] runs over: the elements of a list, the characters
    of a text, the keys of a dict; anything else is not iterable. *)
Definition iter (v : value) : res (list value) :=
  match v with
  | VList l => Ok l
  | VStr s => Ok (chars s)
  | VDict d => Ok (map (fun kv => VStr (fst kv)) d)
  | VNone | VBool _ | VInt _ => Raise TypeError
  end.

(** Truth value, as in [if s]. *)
Definition truthy (v : value) : bool :=
  match v with
  | VNone => false
  | VBool b => b
  | VInt n => negb (n =? 0)
  | VStr s => PyStr.nonempty s
  | VList l => match l with [] => false | _ => true end
  | VDict d => match d with [] => false | _ => true end
  end.

Definition isinstance_str (v : value) : bool :=
  match v with VStr _ => true | _ => false end.
Definition isinstance_dict (v : value) : bool :=
  match v with VDict _ => true | _ => false end.
Definition isinstance_list (v : value) : bool :=
  match v with VList _ => true | _ => false end.

(** [hash(v)] raises [TypeError] exactly on lists and dicts. *)
Definition hashable (v : value) : bool :=
  match v with
  | VList _ | VDict _ => false
  | _ => true
  end.

(** [a == b] on hashable values.  [True] and [False] are the integers 1
    and 0.  Lists and dicts never get here: they are compared only as
    members of a set, and hashing them raises first. *)
Definition eqb (a b : value) : bool :=
  match a, b with
  | VNone, VNone => true
  | VBool x, VBool y => Bool.eqb x y
  | VBool x, VInt n | VInt n, VBool x => n =? (if x then 1 else 0)
  | VInt m, VInt n => m =? n
  | VStr s, VStr t => String.eqb s t
  | _, _ => false
  end.

End Py.

(** ** The aggregation state and its monad *)

(** The dict [aggregated] of [_aggregate_reviews]: three buckets of issue
    dicts and the running list of suggestions. *)
Record aggregated : Type := mkAggregated {
  high_priority : list dict;
  medium_priority : list dict;
  low_priority : list dict;
  suggestions : list string
}.

Definition empty_aggregated : aggregated := mkAggregated [] [] [] [].

(** Statements that update [aggregated] in place and may raise: the updates
    made before an exception stay in the state. *)
Definition M (A : Type) : Type := aggregated -> aggregated * res A.

Definition ret {A : Type} (a : A) : M A := fun st => (st, Ok a).

Definition bind {A B : Type} (m : M A) (k : A -> M B) : M B :=
  fun st =>
    match m st with
    | (st', Ok a) => k a st'
    | (st', Raise e) => (st', Raise e)
    end.

Definition lift {A : Type} (r : res A) : M A := fun st => (st, r).

Declare Scope py_scope.
Delimit Scope py_scope with py.
Notation "x <- m ;; k" := (bind m (fun x => k))
  (at level 61, m at next level, right associativity) : py_scope.
Notation "m ;; k" := (bind m (fun _ => k))
  (at level 61, right associativity) : py_scope.
Local Open Scope py_scope.

(** [for x in l: body(x)] *)
Fixpoint for_each {A : Type} (l : list A) (body : A -> M unit) : M unit :=
  match l with
  | [] => ret tt
  | x :: l' => body x ;; for_each l' body
  end.

(** [aggregated["high_priority"].append(issue)] and its siblings. *)
Definition append_high (issue : dict) : M unit :=
  fun st => (mkAggregated (high_priority st ++ [issue]) (medium_priority st)
                          (low_priority st) (suggestions st), Ok tt).
Definition append_medium (issue : dict) : M unit :=
  fun st => (mkAggregated (high_priority st) (medium_priority st ++ [issue])
                          (low_priority st) (suggestions st), Ok tt).
Definition append_low (issue : dict) : M unit :=
  fun st => (mkAggregated (high_priority st) (medium_priority st)
                          (low_priority st ++ [issue]) (suggestions st), Ok tt).

(** [aggregated["suggestions"].extend(l)] *)
Definition extend_suggestions (l : list string) : M unit :=
  fun st => (mkAggregated (high_priority st) (medium_priority st)
                          (low_priority st) (suggestions st ++ l), Ok tt).

(** ** Sets of item tuples and dicts built from keys *)

Module PySet.

(** [tuple(sorted(x.items()))]: the items of a dict in the order of their
    keys.  Keys of a dict are pairwise distinct, so the order of two items
    is decided by their keys alone. *)
Fixpoint insert_item (kv : string * value) (t : list (string * value))
  : list (string * value) :=
  match t with
  | [] => [kv]
  | kv' :: t' =>
      if String.leb (fst kv) (fst kv') then kv :: t
      else kv' :: insert_item kv t'
  end.

Definition sorted_items (x : dict) : list (string * value) :=
  fold_right insert_item [] x.

(** [hash(t)] of a tuple of pairs raises when an element does. *)
Definition hash_ok (t : list (string * value)) : bool :=
  forallb (fun kv => Py.hashable (snd kv)) t.

(** [t1 == t2] on tuples of (key, value) pairs. *)
Fixpoint tuple_eqb (t1 t2 : list (string * value)) : bool :=
  match t1, t2 with
  | [], [] => true
  | (k1, v1) :: r1, (k2, v2) :: r2 =>
      String.eqb k1 k2 && Py.eqb v1 v2 && tuple_eqb r1 r2
  | _, _ => false
  end.

(** A [set] of tuples, as the list of its members.  Membership goes by
    [==], which does not tell [True] from [1], so the members are kept
    as they were added rather than in a set of Rocq values. *)
Definition t : Type := list (list (string * value)).

(** [key in seen] *)
Definition contains (seen : t) (key : list (string * value)) : res bool :=
  if hash_ok key then Ok (existsb (tuple_eqb key) seen) else Raise TypeError.

(** [seen.add(key)], reached only after [key in seen] came out false. *)
Definition add (seen : t) (key : list (string * value)) : t := key :: seen.

(** [d[k] = v]: a new key goes last, a known key keeps its place. *)
Fixpoint dict_set (d : dict) (k : string) (v : value) : dict :=
  match d with
  | [] => [(k, v)]
  | (k', v') :: d' =>
      if String.eqb k' k then (k', v) :: d' else (k', v') :: dict_set d' k v
  end.

(** [dict.fromkeys(keys)] *)
Definition dict_fromkeys (keys : list string) : dict :=
  fold_left (fun d k => dict_set d k VNone) keys [].

(** [list(d)]: the keys in insertion order. *)
Definition dict_keys (d : dict) : list string := map fst d.

End PySet.

(** ** Reviewers *)

(** An [Agent] of the [swarms] package, as far as this program reads it. *)
Record Agent : Type := mkAgent {
  agent_name : string;
  description : string;
  system_prompt : string;
  model_name : string
}.

(** How one [await agent.achat(task)] settles: with a response, or with an
    exception (an instance of [Exception]) carrying a message. *)
Inductive call_outcome : Type :=
| Returned (response : value)
| Failed (message : string).

(** The roster [code_review_agents]. *)
Definition code_review_agents : list Agent :=
  [ mkAgent "StyleAnalysisAgent"
      "Analyzes code style and formatting issues"
      "You are a code style analysis expert. Review code for:
        - PEP 8 compliance (Python)
        - Consistent formatting
        - Naming conventions
        - Code organization
        Provide specific suggestions for improving code readability."
      "gpt-4-turbo";
    mkAgent "SecurityAgent"
      "Identifies security vulnerabilities and best practices"
      "You are a security code review specialist. Analyze code for:
        - Security vulnerabilities
        - Authentication/authorization issues
        - Input validation
        - Secure coding practices
        - Dependency vulnerabilities
        Provide detailed explanations of security risks and remediation steps."
      "gpt-4-turbo";
    mkAgent "PerformanceAgent"
      "Analyzes code performance and optimization opportunities"
      "You are a performance optimization expert. Review code for:
        - Algorithmic efficiency
        - Resource usage
        - Memory management
        - Database query optimization
        - Caching opportunities
        Suggest specific optimizations with expected impact."
      "gpt-4-turbo";
    mkAgent "TestingAgent"
      "Reviews test coverage and testing practices"
      "You are a testing and quality assurance specialist. Analyze code for:
        - Test coverage
        - Test quality and effectiveness
        - Edge cases
        - Integration test opportunities
        - Mocking strategies
        Provide suggestions for improving test coverage and quality."
      "gpt-4-turbo";
    mkAgent "ArchitectureAgent"
      "Reviews architectural patterns and code organization"
      "You are a software architecture expert. Review code for:
        - Design patterns
        - Code modularity
        - Dependency management
        - Interface design
        - Architectural best practices
        Suggest improvements to overall code structure and organization."
      "gpt-4-turbo" ].

(** [class CodeReviewSwarm]: its only attribute is the roster. *)
Record CodeReviewSwarm : Type := mkSwarm { agents : list Agent }.

(** [CodeReviewSwarm()] *)
Definition new_swarm : CodeReviewSwarm := mkSwarm code_review_agents.

(** ** The swarm *)

Section Swarm.

(** [json.loads] of the standard library: the decoded value, or [None]
    where it raises [JSONDecodeError]. *)
Variable json_loads : string -> option value.

(** [repr] of a list or a dict, which is what [str] returns for them. *)
Variable repr : value -> string.

(** The reviewers' capability [agent.achat]. *)
Variable achat : Agent -> string -> call_outcome.

(** [str(s)] *)
Definition py_str (v : value) : string :=
  match v with
  | VStr s => s
  | VInt n => NilZero.string_of_int (Z.to_int n)
  | VBool true => "True"
  | VBool false => "False"
  | VNone => "None"
  | VList _ | VDict _ => repr v
  end.

(** *** Dispatch *)

(** The f-string [review_task]. *)
Definition review_task (code file_path : string) : string :=
  "Review the following code from " ++ file_path ++ ":

" ++ code ++ "

Provide specific, actionable feedback focusing on your area of expertise.
Format your response as a JSON with:
- issues: list of identified issues
- suggestions: list of improvement suggestions
- severity: high/medium/low for each issue
".

(** What [_get_agent_review] returns when the call raised. *)
Definition failed_review : value :=
  VDict [("review", VDict [("issues", VList []); ("suggestions", VList [])])].

Definition _get_agent_review (agent : Agent) (code file_path : string) : value :=
  match achat agent (review_task code file_path) with
  | Returned response => response
  | Failed _ => failed_review
  end.

(** [review_results = await asyncio.gather( *tasks)]: one task per agent;
    [gather] hands the results back in the order of the tasks. *)
Definition review_results (self : CodeReviewSwarm) (code_content file_path : string)
  : list value :=
  map (fun agent => _get_agent_review agent code_content file_path) (agents self).

(** *** Aggregation: one result *)

Definition issue_of_line (issue : string) : value :=
  VDict [("description", VStr (PyStr.strip issue)); ("severity", VStr "medium")].

Definition nonblank (line : string) : bool := PyStr.nonempty (PyStr.strip line).

(** The handler of [json.JSONDecodeError]: a structure out of plain text
    when it mentions issues; otherwise [result] stays the text it was. *)
Definition extract_from_text (result : string) : value :=
  if PyStr.contains "issues" (PyStr.lower result) then
    let issues_start := PyStr.find (PyStr.lower result) "issues" in
    let suggestions_start := PyStr.find (PyStr.lower result) "suggestions" in
    let suggestions_start :=
      if suggestions_start =? -1 then PyStr.len result else suggestions_start in
    let issues_text := PyStr.slice result issues_start suggestions_start in
    let suggestions_text :=
      if suggestions_start <? PyStr.len result
      then PyStr.slice_from result suggestions_start else "" in
    VDict [("issues",
            VList (map issue_of_line
                       (filter nonblank (PyStr.split_lines issues_text))));
           ("suggestions",
            VList (map (fun s => VStr (PyStr.strip s))
                       (filter nonblank (PyStr.split_lines suggestions_text))))]
  else VStr result.

(** [if isinstance(result, str): ...] *)
Definition parse (result : value) : value :=
  match result with
  | VStr s =>
      match json_loads s with
      | Some v => v
      | None => extract_from_text s
      end
  | _ => result
  end.

(** The body of [for issue in ...]. *)
Definition classify_issue (issue : value) : M unit :=
  match issue with
  | VDict d =>
      severity <- lift (Py.lower (Py.dict_get d "severity" (VStr "low"))) ;;
      if String.eqb severity "high" then append_high d
      else if String.eqb severity "medium" then append_medium d
      else append_low d
  | _ => ret tt
  end.

(** [# Process issues] *)
Definition process_issues (review_data : value) : M unit :=
  issues <- lift (Py.get review_data "issues" (VList [])) ;;
  items <- lift (Py.iter issues) ;;
  for_each items classify_issue.

(** [# Process suggestions] *)
Definition process_suggestions (review_data : value) : M unit :=
  suggestions <- lift (Py.get review_data "suggestions" (VList [])) ;;
  match suggestions with
  | VList l => extend_suggestions (map py_str (filter Py.truthy l))
  | _ => ret tt
  end.

(** [if isinstance(result, dict): ...] *)
Definition process_structured (result : value) : M unit :=
  match result with
  | VDict d =>
      let review_data := Py.dict_get d "review" result in
      process_issues review_data ;;
      process_suggestions review_data
  | _ => ret tt
  end.

(** The body of the [try] for one result. *)
Definition process_result (result : value) : M unit :=
  process_structured (parse result).

(** [try: ... except Exception: continue]: the exception is dropped, the
    state is what the body left. *)
Definition try_continue (body : M unit) (st : aggregated) : aggregated :=
  fst (body st).

(** [for result in review_results: ...] *)
Definition aggregate_loop (results : list value) (st : aggregated) : aggregated :=
  fold_left (fun st result => try_continue (process_result result) st) results st.

(** *** Aggregation: removing duplicates *)

(** The list comprehension over one bucket, with its set [seen]. *)
Fixpoint unique_issues (seen : PySet.t) (bucket : list dict) : res (list dict) :=
  match bucket with
  | [] => Ok []
  | x :: rest =>
      match PySet.contains seen (PySet.sorted_items x) with
      | Raise e => Raise e
      | Ok true => unique_issues seen rest
      | Ok false =>
          match unique_issues (PySet.add seen (PySet.sorted_items x)) rest with
          | Ok kept => Ok (x :: kept)
          | Raise e => Raise e
          end
      end
  end.

(** [list(dict.fromkeys(l))] *)
Definition unique_suggestions (l : list string) : list string :=
  PySet.dict_keys (PySet.dict_fromkeys l).

(** [for key in aggregated: ...], the keys in the order of the literal. *)
Definition remove_duplicates (st : aggregated) : res aggregated :=
  match unique_issues [] (high_priority st) with
  | Raise e => Raise e
  | Ok high =>
      match unique_issues [] (medium_priority st) with
      | Raise e => Raise e
      | Ok medium =>
          match unique_issues [] (low_priority st) with
          | Raise e => Raise e
          | Ok low =>
              Ok (mkAggregated high medium low
                               (unique_suggestions (suggestions st)))
          end
      end
  end.

Definition _aggregate_reviews (results : list value) : res aggregated :=
  remove_duplicates (aggregate_loop results empty_aggregated).

(** [review_code]: an exception of the aggregation is logged and raised
    again. *)
Definition review_code (self : CodeReviewSwarm) (code_content file_path : string)
  : res aggregated :=
  _aggregate_reviews (review_results self code_content file_path).

End Swarm.

(** ** Reference notions used in the statements *)

(** Later duplicates removed: every element that has an equal one before it
    goes, the others stay where they are. *)
Fixpoint keep_first {A : Type} (same : A -> A -> bool) (l : list A) : list A :=
  match l with
  | [] => []
  | x :: l' => x :: filter (fun y => negb (same y x)) (keep_first same l')
  end.

(** Two issues have the same fields: their items, sorted by field name, are
    equal pair by pair. *)
Definition same_fields (x y : dict) : bool :=
  PySet.tuple_eqb (PySet.sorted_items x) (PySet.sorted_items y).

(** Every field value of the issue can be hashed. *)
Definition hashable_issue (x : dict) : bool :=
  PySet.hash_ok (PySet.sorted_items x).

(** A state holds only issues that can be hashed. *)
Definition hashable_state (st : aggregated) : bool :=
  forallb hashable_issue (high_priority st)
  && forallb hashable_issue (medium_priority st)
  && forallb hashable_issue (low_priority st).

(** One state after another: bucket by bucket, what the second holds is
    appended to what the first holds. *)
Definition agg_app (a b : aggregated) : aggregated :=
  mkAggregated (high_priority a ++ high_priority b)
               (medium_priority a ++ medium_priority b)
               (low_priority a ++ low_priority b)
               (suggestions a ++ suggestions b).

(** What one result adds to the state: the outcome of its [try] block run
    on empty buckets. *)
Definition contribution (json_loads : string -> option value)
           (repr : value -> string) (result : value) : aggregated :=
  try_continue (process_result json_loads repr result) empty_aggregated.

(** A statement that only appends: run from any state, it adds what it adds
    from the empty one, with the same outcome. *)
Definition appends_only {A : Type} (m : M A) : Prop :=
  forall st, m st = (agg_app st (fst (m empty_aggregated)), snd (m empty_aggregated)).

(** The plain mapping that holds the issues and the suggestions of [d]
    and nothing else. *)
Definition source_of (d : dict) : value :=
  VDict [("issues", Py.dict_get d "issues" (VList []));
         ("suggestions", Py.dict_get d "suggestions" (VList []))].

(** The empty result without a wrapper. *)
Definition empty_result : value :=
  VDict [("issues", VList []); ("suggestions", VList [])].

(** The capital of an ASCII small letter. *)
Definition capital (w : ascii) : ascii := ascii_of_nat (nat_of_ascii w - 32).

Definition small_letter (w : ascii) : bool :=
  ((97 <=? nat_of_ascii w) && (nat_of_ascii w <=? 122))%nat.

(** [s] is [word] up to the case of its letters. *)
Fixpoint any_case (word s : string) : bool :=
  match word, s with
  | EmptyString, EmptyString => true
  | String w word', String c s' =>
      (Ascii.eqb c w || Ascii.eqb c (capital w)) && any_case word' s'
  | _, _ => false
  end.


(** All 256 code points of the model. *)
Definition all_ascii : list ascii := map ascii_of_nat (seq 0 256).

(** The stored values of one field in two issues agree. *)
Definition fields_match (a b : option value) : Prop :=
  match a, b with
  | Some u, Some v => Py.eqb u v = true
  | None, None => True
  | _, _ => False
  end.

(** Field names in the order of their code points. *)
Definition key_lt (a b : string) : Prop := String.compare a b = Lt.

(** Items in strictly ascending order of their keys. *)
Fixpoint ascending (t : list (string * value)) : Prop :=
  match t with
  | [] => True
  | kv :: t' => Forall (fun kv' => key_lt (fst kv) (fst kv')) t' /\ ascending t'
  end.


(** ** Sample data *)

Module Samples.

Definition nl : string := String PyStr.newline EmptyString.

(** A decoder for texts that are no JSON documents.  A JSON document
    starts, after blanks, with a brace, a bracket, a quote, a minus sign,
    a digit or one of the letters t, f, n (and N, I in Python); the texts
    decoded below start with another letter, and [json.loads] raises
    [JSONDecodeError] on them. *)
Definition no_json : string -> option value := fun _ => None.

(** A stand-in for [repr]; the samples never print a list or a dict. *)
Definition no_repr : value -> string := fun _ => EmptyString.


(** A text blob that mentions suggestions only. *)
Definition suggestions_only : string :=
  "Suggestions:" ++ nl ++ "run a linter".

Definition issue_high : value :=
  VDict [("description", VStr "No input validation"); ("severity", VStr "high");
         ("line", VInt 3)].

(** An issue with a list among its field values. *)
Definition issue_with_list : value :=
  VDict [("description", VStr "Unused names"); ("severity", VStr "high");
         ("lines", VList [VInt 1; VInt 2])].

(** An issue whose severity is JSON [null]. *)
Definition issue_null_severity : value :=
  VDict [("description", VStr "Unclear"); ("severity", VNone)].

(** A result whose [review] field is text, with issues beside it. *)
Definition review_is_text : value :=
  VDict [("review", VStr "looks fine"); ("issues", VList [issue_high]);
         ("suggestions", VList [VStr "Add tests"])].

(** A reviewer roster of five where the third call fails. *)
Definition third_fails (agent : Agent) (task : string) : call_outcome :=
  if String.eqb (agent_name agent) "PerformanceAgent"
  then Failed "timeout"
  else Returned (VDict [("issues", VList [issue_high]);
                        ("suggestions", VList [VStr "Add tests"])]).

End Samples.

(** ** The request validators of the service *)

Module Api.

(** What a validator of [CodeReviewRequest] does with a field value: it
    returns the value, or raises [ValueError] with a message. *)
Inductive validated : Type :=
| Valid (v : string)
| ValueError (message : string).

(** [s.endswith(suffix)] *)
Definition endswith (s suffix : string) : bool :=
  (String.length suffix <=? String.length s)%nat
  && String.eqb (String.substring (String.length s - String.length suffix)
                                  (String.length suffix) s)
                suffix.

(** [validate_code] *)
Definition validate_code (v : string) : validated :=
  if negb (PyStr.nonempty (PyStr.strip v))
  then ValueError "Code cannot be empty or whitespace only"
  else Valid v.

(** The extensions listed in [validate_file_path]. *)
Definition extensions : list string :=
  [".py"; ".js"; ".ts"; ".java"; ".cpp"; ".go"].

(** [validate_file_path] *)
Definition validate_file_path (v : string) : validated :=
  if negb (existsb (endswith v) extensions)
  then ValueError
         "Unsupported file type. Must be one of: .py, .js, .ts, .java, .cpp, .go"
  else Valid v.

End Api.

(** ** Further notions used in the statements *)

(** The three buckets of a state. *)
Inductive bucket : Type := High | Medium | Low.

Definition issues_of (b : bucket) (st : aggregated) : list dict :=
  match b with
  | High => high_priority st
  | Medium => medium_priority st
  | Low => low_priority st
  end.

(** The severity an issue is classified by, when it is text or absent. *)
Definition severity_text (d : dict) : option string :=
  match Py.dict_get d "severity" (VStr "low") with
  | VStr s => Some s
  | _ => None
  end.

(** The bucket that belongs to a severity. *)
Definition bucket_of_severity (s : string) : bucket :=
  if any_case "high" s then High
  else if any_case "medium" s then Medium
  else Low.

(** A state with one more issue at the end of a bucket. *)
Definition add_issue (b : bucket) (d : dict) (st : aggregated) : aggregated :=
  match b with
  | High => mkAggregated (high_priority st ++ [d]) (medium_priority st)
                         (low_priority st) (suggestions st)
  | Medium => mkAggregated (high_priority st) (medium_priority st ++ [d])
                           (low_priority st) (suggestions st)
  | Low => mkAggregated (high_priority st) (medium_priority st)
                        (low_priority st ++ [d]) (suggestions st)
  end.

(** Every issue sits in the bucket of its own severity. *)
Definition well_bucketed (st : aggregated) : Prop :=
  forall b d, In d (issues_of b st) ->
              exists s, severity_text d = Some s /\ bucket_of_severity s = b.

(** The responses of the agents whose call returned, in roster order. *)
Definition returned_responses (achat : Agent -> string -> call_outcome)
           (self : CodeReviewSwarm) (code_content file_path : string) : list value :=
  flat_map (fun agent =>
              match achat agent (review_task code_content file_path) with
              | Returned response => [response]
              | Failed _ => []
              end)
           (agents self).

(** A text made of whitespace only; the empty text is one. *)
Fixpoint all_space (s : string) : bool :=
  match s with
  | EmptyString => true
  | String c s' => PyStr.isspace c && all_space s'
  end.

(** ** Facts about [keep_first] *)

Local Open Scope list_scope.

Section KeepFirstFacts.

Context {A : Type} (same : A -> A -> bool).
Hypothesis same_sym : forall x y, same x y = same y x.
Hypothesis same_trans :
  forall x y z, same x y = true -> same y z = true -> same x z = true.

Lemma filter_twice (p q : A -> bool) (l : list A) :
  filter p (filter q l) = filter (fun x => q x && p x) l.
Proof.
  induction l as [|x l IH]; simpl; [reflexivity|].
  destruct (q x); simpl; [destruct (p x)|]; now rewrite IH.
Qed.

Lemma filter_same_pred (p q : A -> bool) (l : list A) :
  (forall x, In x l -> p x = q x) -> filter p l = filter q l.
Proof.
  induction l as [|x l IH]; simpl; intros H; [reflexivity|].
  rewrite (H x (or_introl eq_refl)), IH; auto.
Qed.

Lemma filter_all (p : A -> bool) (l : list A) :
  (forall x, In x l -> p x = true) -> filter p l = l.
Proof.
  induction l as [|x l IH]; simpl; intros H; [reflexivity|].
  rewrite (H x (or_introl eq_refl)), IH; auto.
Qed.

Lemma keep_first_In (l : list A) (x : A) :
  In x (keep_first same l) -> In x l.
Proof.
  revert x; induction l as [|y l IH]; simpl; intros x H; [exact H|].
  destruct H as [H|H]; [now left|].
  apply filter_In in H. right. apply IH. tauto.
Qed.

(** Filtering by a predicate that cannot tell duplicates apart commutes
    with removing duplicates. *)
Lemma keep_first_filter (p : A -> bool) (l : list A) :
  (forall x y, same x y = true -> p x = p y) ->
  keep_first same (filter p l) = filter p (keep_first same l).
Proof.
  intros Hp. induction l as [|x l IH]; simpl; [reflexivity|].
  destruct (p x) eqn:Hx; simpl; rewrite IH.
  - f_equal. rewrite !filter_twice. apply filter_same_pred.
    intros y _. apply andb_comm.
  - rewrite filter_twice. apply filter_same_pred. intros y _.
    destruct (same y x) eqn:Hyx; simpl; [|reflexivity].
    rewrite (Hp y x Hyx). exact Hx.
Qed.

Lemma differs_compat (x y z : A) :
  same y z = true -> negb (same y x) = negb (same z x).
Proof.
  intros Hyz. f_equal.
  destruct (same y x) eqn:Hyx, (same z x) eqn:Hzx; try reflexivity.
  - rewrite same_sym in Hyz. now rewrite (same_trans z y x Hyz Hyx) in Hzx.
  - now rewrite (same_trans y z x Hyz Hzx) in Hyx.
Qed.

Lemma keep_first_idem (l : list A) :
  keep_first same (keep_first same l) = keep_first same l.
Proof.
  induction l as [|x l IH]; simpl; [reflexivity|].
  f_equal. rewrite keep_first_filter.
  - rewrite IH, filter_twice. apply filter_same_pred.
    intros y _. now destruct (same y x).
  - intros y z. apply differs_compat.
Qed.

(** Removing duplicates from left to right: what a prefix keeps is not
    touched by what follows. *)
Lemma keep_first_app (a b : list A) :
  keep_first same (a ++ b) =
  keep_first same a
  ++ filter (fun y => negb (existsb (same y) a)) (keep_first same b).
Proof.
  induction a as [|x a IH]; simpl.
  - symmetry. apply filter_all. reflexivity.
  - f_equal. rewrite IH, filter_app, filter_twice. f_equal.
    apply filter_same_pred. intros y _.
    rewrite negb_orb. apply andb_comm.
Qed.

Lemma keep_first_snoc (l : list A) (x : A) :
  keep_first same (l ++ [x]) =
  if existsb (same x) l then keep_first same l else keep_first same l ++ [x].
Proof.
  rewrite keep_first_app. simpl.
  destruct (existsb (same x) l); simpl; [apply app_nil_r | reflexivity].
Qed.

Lemma filter_split (p : A -> bool) (l a b : list A) (x : A) :
  filter p l = a ++ x :: b ->
  exists a' b', l = a' ++ x :: b' /\ filter p a' = a /\ filter p b' = b.
Proof.
  revert a. induction l as [|y l IH]; simpl; intros a H.
  - destruct a; discriminate.
  - destruct (p y) eqn:Hy.
    + destruct a as [|z a]; simpl in H.
      * injection H as -> H. exists [], l. simpl. auto.
      * injection H as -> H. destruct (IH a H) as (a' & b' & -> & Ha & Hb).
        exists (z :: a'), b'. simpl. rewrite Hy, Ha. auto.
    + destruct (IH a H) as (a' & b' & -> & Ha & Hb).
      exists (y :: a'), b'. simpl. rewrite Hy. auto.
Qed.

Lemma existsb_filter_false (p q : A -> bool) (l : list A) :
  existsb q l = false -> existsb q (filter p l) = false.
Proof.
  induction l as [|y l IH]; simpl; [reflexivity|].
  intros H. apply orb_false_iff in H. destruct H as [Hy Hl].
  destruct (p y); simpl; [rewrite Hy|]; auto.
Qed.

(** No element of the result has an equal one before it. *)
Lemma keep_first_distinct (l pre post : list A) (x : A) :
  keep_first same l = pre ++ x :: post -> existsb (same x) pre = false.
Proof.
  revert pre post x. induction l as [|y l IH]; simpl; intros pre post x H.
  - destruct pre; discriminate.
  - destruct pre as [|p pre]; [reflexivity|].
    simpl in H. injection H as -> H. simpl.
    assert (Hin : In x (filter (fun z => negb (same z p)) (keep_first same l)))
      by (rewrite H; apply in_elt).
    apply filter_In in Hin. destruct Hin as [_ Hxp].
    apply negb_true_iff in Hxp. rewrite Hxp. simpl.
    destruct (filter_split _ _ _ _ _ H) as (a' & b' & Hl & <- & _).
    apply existsb_filter_false. eapply IH. exact Hl.
Qed.

(** Whether some member equals [x] is not changed by removing
    duplicates. *)
Lemma existsb_keep_first (l : list A) (x : A) :
  existsb (same x) (keep_first same l) = existsb (same x) l.
Proof.
  induction l as [|y l IH]; simpl; [reflexivity|].
  destruct (same x y) eqn:Hxy; simpl; [reflexivity|].
  rewrite <- IH. clear IH.
  induction (keep_first same l) as [|z k IHk]; simpl; [reflexivity|].
  destruct (same z y) eqn:Hzy; simpl; rewrite IHk; [|reflexivity].
  destruct (same x z) eqn:Hxz; [|reflexivity].
  now rewrite (same_trans x z y Hxz Hzy) in Hxy.
Qed.

End KeepFirstFacts.

(** ** Equality of item tuples *)

Lemma py_eqb_sym (a b : value) : Py.eqb a b = Py.eqb b a.
Proof.
  destruct a, b; simpl; try reflexivity.
  - now destruct b, b0.
  - apply Z.eqb_sym.
  - apply String.eqb_sym.
Qed.

Lemma py_eqb_trans (a b c : value) :
  Py.eqb a b = true -> Py.eqb b c = true -> Py.eqb a c = true.
Proof.
  destruct a, b, c; simpl; try discriminate; try reflexivity;
    rewrite ?Z.eqb_eq, ?String.eqb_eq, ?Bool.eqb_true_iff;
    intros; subst; try reflexivity;
    repeat match goal with b : bool |- _ => destruct b end;
    try reflexivity; try discriminate; try lia.
Qed.

Lemma py_eqb_refl (a : value) : Py.hashable a = true -> Py.eqb a a = true.
Proof.
  destruct a; simpl; try discriminate; intros _; try reflexivity.
  - now destruct b.
  - apply Z.eqb_refl.
  - apply String.eqb_refl.
Qed.

Lemma tuple_eqb_sym (t1 t2 : list (string * value)) :
  PySet.tuple_eqb t1 t2 = PySet.tuple_eqb t2 t1.
Proof.
  revert t2. induction t1 as [|[k1 v1] t1 IH]; intros [|[k2 v2] t2]; simpl;
    try reflexivity.
  now rewrite String.eqb_sym, py_eqb_sym, IH.
Qed.

Lemma tuple_eqb_trans (t1 t2 t3 : list (string * value)) :
  PySet.tuple_eqb t1 t2 = true -> PySet.tuple_eqb t2 t3 = true ->
  PySet.tuple_eqb t1 t3 = true.
Proof.
  revert t2 t3.
  induction t1 as [|[k1 v1] t1 IH]; intros [|[k2 v2] t2] [|[k3 v3] t3]; simpl;
    try discriminate; try reflexivity.
  rewrite !andb_true_iff, !String.eqb_eq.
  intros [[-> H12] T12] [[-> H23] T23].
  repeat split; eauto using py_eqb_trans.
Qed.

Lemma tuple_eqb_refl (t : list (string * value)) :
  PySet.hash_ok t = true -> PySet.tuple_eqb t t = true.
Proof.
  induction t as [|[k v] t IH]; simpl; [reflexivity|].
  rewrite andb_true_iff. intros [Hv Ht].
  now rewrite String.eqb_refl, (py_eqb_refl v Hv), IH.
Qed.

Lemma same_fields_sym (x y : dict) : same_fields x y = same_fields y x.
Proof. apply tuple_eqb_sym. Qed.

Lemma same_fields_trans (x y z : dict) :
  same_fields x y = true -> same_fields y z = true -> same_fields x z = true.
Proof. apply tuple_eqb_trans. Qed.

Lemma same_fields_refl (x : dict) :
  hashable_issue x = true -> same_fields x x = true.
Proof. apply tuple_eqb_refl. Qed.

(** ** The duplicate removal computes [keep_first] *)

Lemma dict_keys_set (d : dict) (k : string) (v : value) :
  PySet.dict_keys (PySet.dict_set d k v) =
  if existsb (String.eqb k) (PySet.dict_keys d)
  then PySet.dict_keys d else PySet.dict_keys d ++ [k].
Proof.
  induction d as [|[k' v'] d IH]; simpl; [reflexivity|].
  rewrite (String.eqb_sym k k').
  destruct (String.eqb k' k); simpl; [reflexivity|].
  unfold PySet.dict_keys in *. rewrite IH.
  now destruct (existsb (String.eqb k) (map fst d)).
Qed.

Lemma string_eqb_trans (x y z : string) :
  String.eqb x y = true -> String.eqb y z = true -> String.eqb x z = true.
Proof. rewrite !String.eqb_eq. congruence. Qed.

Lemma unique_suggestions_keep_first (l : list string) :
  unique_suggestions l = keep_first String.eqb l.
Proof.
  unfold unique_suggestions, PySet.dict_fromkeys.
  induction l as [|x l IH] using rev_ind; [reflexivity|].
  rewrite fold_left_app. simpl.
  rewrite dict_keys_set, IH.
  rewrite (existsb_keep_first String.eqb string_eqb_trans).
  now rewrite keep_first_snoc.
Qed.

Lemma unique_issues_seen (bucket : list dict) (seen : PySet.t) :
  unique_issues seen bucket =
  if forallb hashable_issue bucket
  then Ok (filter (fun y => negb (existsb (PySet.tuple_eqb (PySet.sorted_items y)) seen))
                  (keep_first same_fields bucket))
  else Raise TypeError.
Proof.
  revert seen. induction bucket as [|x rest IH]; intros seen; simpl; [reflexivity|].
  unfold PySet.contains. fold (hashable_issue x).
  destruct (hashable_issue x); simpl; [|reflexivity].
  destruct (existsb (PySet.tuple_eqb (PySet.sorted_items x)) seen) eqn:Hx; simpl.
  - rewrite IH. destruct (forallb hashable_issue rest); [|reflexivity].
    f_equal. rewrite filter_twice. apply filter_same_pred. intros y _.
    destruct (same_fields y x) eqn:Hyx; simpl; [|reflexivity].
    assert (Hy : existsb (PySet.tuple_eqb (PySet.sorted_items y)) seen = true).
    { apply existsb_exists in Hx. destruct Hx as (s & Hs & Hxs).
      apply existsb_exists. exists s. split; [exact Hs|].
      eapply tuple_eqb_trans; eassumption. }
    now rewrite Hy.
  - rewrite IH. destruct (forallb hashable_issue rest); [|reflexivity].
    f_equal. f_equal. unfold PySet.add. rewrite filter_twice.
    apply filter_same_pred. intros y _. simpl.
    rewrite negb_orb. reflexivity.
Qed.

Lemma unique_issues_keep_first (bucket : list dict) :
  unique_issues [] bucket =
  if forallb hashable_issue bucket
  then Ok (keep_first same_fields bucket) else Raise TypeError.
Proof.
  rewrite unique_issues_seen.
  destruct (forallb hashable_issue bucket); [|reflexivity].
  f_equal. apply filter_all. reflexivity.
Qed.

Lemma remove_duplicates_spec (st : aggregated) :
  remove_duplicates st =
  if hashable_state st
  then Ok (mkAggregated (keep_first same_fields (high_priority st))
                        (keep_first same_fields (medium_priority st))
                        (keep_first same_fields (low_priority st))
                        (keep_first String.eqb (suggestions st)))
  else Raise TypeError.
Proof.
  unfold remove_duplicates, hashable_state.
  rewrite !unique_issues_keep_first, unique_suggestions_keep_first.
  destruct (forallb hashable_issue (high_priority st)); simpl; [|reflexivity].
  destruct (forallb hashable_issue (medium_priority st)); simpl; [|reflexivity].
  destruct (forallb hashable_issue (low_priority st)); reflexivity.
Qed.

Lemma forallb_keep_first {A : Type} (same : A -> A -> bool) (p : A -> bool)
      (l : list A) :
  forallb p l = true -> forallb p (keep_first same l) = true.
Proof.
  rewrite !forallb_forall. intros H x Hx.
  apply H. revert Hx. clear H.
  revert x. induction l as [|y l IH]; simpl; intros x; [tauto|].
  intros [->|Hx]; [now left|].
  apply filter_In in Hx. right. apply IH. tauto.
Qed.

(** ** The statements of the aggregation only append *)

Lemma agg_app_empty_r (a : aggregated) : agg_app a empty_aggregated = a.
Proof. destruct a. unfold agg_app. simpl. now rewrite !app_nil_r. Qed.

Lemma agg_app_empty_l (a : aggregated) : agg_app empty_aggregated a = a.
Proof. now destruct a. Qed.

Lemma agg_app_assoc (a b c : aggregated) :
  agg_app (agg_app a b) c = agg_app a (agg_app b c).
Proof. unfold agg_app. simpl. now rewrite !app_assoc. Qed.

Lemma appends_only_ret {A : Type} (a : A) : appends_only (ret a).
Proof. intros st. unfold ret. simpl. now rewrite agg_app_empty_r. Qed.

Lemma appends_only_lift {A : Type} (r : res A) : appends_only (lift r).
Proof. intros st. unfold lift. simpl. now rewrite agg_app_empty_r. Qed.

Lemma appends_only_bind {A B : Type} (m : M A) (k : A -> M B) :
  appends_only m -> (forall a, appends_only (k a)) -> appends_only (bind m k).
Proof.
  intros Hm Hk st. unfold bind. rewrite (Hm st).
  destruct (m empty_aggregated) as [d [a|e]]; simpl; [|reflexivity].
  rewrite (Hk a (agg_app st d)), (Hk a d). simpl.
  now rewrite agg_app_assoc.
Qed.

Lemma appends_only_append_high (issue : dict) : appends_only (append_high issue).
Proof. intros st. unfold append_high, agg_app. simpl. now rewrite !app_nil_r. Qed.

Lemma appends_only_append_medium (issue : dict) : appends_only (append_medium issue).
Proof. intros st. unfold append_medium, agg_app. simpl. now rewrite !app_nil_r. Qed.

Lemma appends_only_append_low (issue : dict) : appends_only (append_low issue).
Proof. intros st. unfold append_low, agg_app. simpl. now rewrite !app_nil_r. Qed.

Lemma appends_only_extend (l : list string) : appends_only (extend_suggestions l).
Proof. intros st. unfold extend_suggestions, agg_app. simpl. now rewrite !app_nil_r. Qed.

Lemma appends_only_for_each {A : Type} (l : list A) (body : A -> M unit) :
  (forall x, appends_only (body x)) -> appends_only (for_each l body).
Proof.
  intros Hb. induction l as [|x l IH]; simpl.
  - apply appends_only_ret.
  - apply appends_only_bind; auto.
Qed.

Create HintDb appends.

#[local] Hint Resolve appends_only_ret appends_only_lift appends_only_bind
  appends_only_append_high appends_only_append_medium appends_only_append_low
  appends_only_extend appends_only_for_each : appends.

Lemma appends_only_classify (issue : value) : appends_only (classify_issue issue).
Proof.
  destruct issue; simpl; auto with appends.
  apply appends_only_bind; auto with appends.
  intros severity.
  destruct (String.eqb severity "high"); auto with appends.
  destruct (String.eqb severity "medium"); auto with appends.
Qed.

Section ProcessAppends.

Variable json_loads : string -> option value.
Variable repr : value -> string.

Lemma appends_only_issues (review_data : value) :
  appends_only (process_issues review_data).
Proof.
  unfold process_issues.
  repeat (apply appends_only_bind; auto with appends; intros).
  apply appends_only_for_each. apply appends_only_classify.
Qed.

Lemma appends_only_suggestions (review_data : value) :
  appends_only (process_suggestions repr review_data).
Proof.
  unfold process_suggestions.
  apply appends_only_bind; auto with appends.
  intros suggestions. destruct suggestions; auto with appends.
Qed.

Lemma appends_only_structured (result : value) :
  appends_only (process_structured repr result).
Proof.
  destruct result; simpl; auto with appends.
  apply appends_only_bind; intros;
    auto using appends_only_issues, appends_only_suggestions.
Qed.

Lemma appends_only_result (result : value) :
  appends_only (process_result json_loads repr result).
Proof. apply appends_only_structured. Qed.

(** One turn of the loop appends the contribution of its result. *)
Lemma try_continue_contribution (result : value) (st : aggregated) :
  try_continue (process_result json_loads repr result) st =
  agg_app st (contribution json_loads repr result).
Proof.
  unfold contribution, try_continue.
  now rewrite (appends_only_result result st).
Qed.

Lemma aggregate_loop_app (results : list value) (st : aggregated) :
  aggregate_loop json_loads repr results st =
  agg_app st (aggregate_loop json_loads repr results empty_aggregated).
Proof.
  revert st. induction results as [|r results IH]; intros st; simpl.
  - now rewrite agg_app_empty_r.
  - unfold aggregate_loop in *. simpl.
    rewrite IH, (IH (try_continue _ empty_aggregated)).
    rewrite try_continue_contribution, (try_continue_contribution r empty_aggregated).
    now rewrite agg_app_empty_l, agg_app_assoc.
Qed.

Lemma aggregate_loop_cons (r : value) (results : list value) (st : aggregated) :
  aggregate_loop json_loads repr (r :: results) st =
  agg_app (agg_app st (contribution json_loads repr r))
          (aggregate_loop json_loads repr results empty_aggregated).
Proof.
  change (aggregate_loop json_loads repr (r :: results) st)
    with (aggregate_loop json_loads repr results
            (try_continue (process_result json_loads repr r) st)).
  now rewrite aggregate_loop_app, try_continue_contribution.
Qed.

Lemma aggregate_loop_suggestions (results : list value) :
  suggestions (aggregate_loop json_loads repr results empty_aggregated) =
  flat_map (fun r => suggestions (contribution json_loads repr r)) results.
Proof.
  induction results as [|r results IH]; [reflexivity|].
  rewrite aggregate_loop_cons. simpl. now rewrite IH.
Qed.

End ProcessAppends.

(** ** First occurrences of texts *)

Lemma keep_first_text_In (l : list string) (s : string) :
  In s (keep_first String.eqb l) <-> In s l.
Proof.
  split; [apply keep_first_In|].
  induction l as [|x l IH]; simpl; [tauto|].
  intros [->|H]; [now left|].
  destruct (String.eqb_spec s x) as [->|Hne]; [now left|].
  right. apply filter_In. split; [auto|].
  apply negb_true_iff. now apply String.eqb_neq.
Qed.

Lemma keep_first_text_NoDup (l : list string) : NoDup (keep_first String.eqb l).
Proof.
  induction l as [|x l IH]; simpl; constructor.
  - intros H. apply filter_In in H. destruct H as [_ H].
    now rewrite String.eqb_refl in H.
  - now apply NoDup_filter.
Qed.

Lemma existsb_text_false (l : list string) (s : string) :
  ~ In s l -> existsb (String.eqb s) l = false.
Proof.
  intros H. destruct (existsb (String.eqb s) l) eqn:E; [|reflexivity].
  apply existsb_exists in E. destruct E as (t & Ht & E).
  apply String.eqb_eq in E. now subst.
Qed.

(** The element that first occurs after [pre] comes right after the first
    occurrences of [pre]. *)
Lemma keep_first_text_position (pre post : list string) (s : string) :
  ~ In s pre ->
  exists post',
    keep_first String.eqb (pre ++ s :: post) =
    keep_first String.eqb pre ++ s :: post'
    /\ (forall t, In t post' -> In t post).
Proof.
  intros Hs. rewrite keep_first_app. simpl.
  rewrite (existsb_text_false pre s Hs). simpl.
  eexists. split; [reflexivity|].
  intros t Ht. apply filter_In in Ht. destruct Ht as [Ht _].
  apply filter_In in Ht. destruct Ht as [Ht _].
  now apply keep_first_In in Ht.
Qed.

(** ** Suggestions of the report *)

(** C7.  Whenever [_aggregate_reviews] returns a report: its suggestions
    hold no text twice; they hold exactly the texts that the results
    contributed, taken in input order; a text that first occurs after the
    texts [pre] stands right after the first occurrences of [pre], that is
    at the position of its first occurrence; and suggestions arriving as
    A, B, A, C across the results come out as A, B, C. *)
Theorem suggestions_unique_in_first_seen_order :
  forall (json_loads : string -> option value) (repr : value -> string)
         (results : list value) (report : aggregated),
    _aggregate_reviews json_loads repr results = Ok report ->
    let collected :=
      flat_map (fun r => suggestions (contribution json_loads repr r)) results in
    NoDup (suggestions report)
    /\ (forall s, In s (suggestions report) <-> In s collected)
    /\ (forall pre s post,
           collected = pre ++ s :: post -> ~ In s pre ->
           exists pre' post',
             suggestions report = pre' ++ s :: post'
             /\ (forall t, In t pre' <-> In t pre)
             /\ (forall t, In t post' -> In t post))
    /\ (collected = ["A"; "B"; "A"; "C"]%string ->
        suggestions report = ["A"; "B"; "C"]%string).
Proof.
  intros json_loads repr results report H collected.
  unfold _aggregate_reviews in H. rewrite remove_duplicates_spec in H.
  destruct (hashable_state _); [|discriminate].
  injection H as <-. simpl.
  rewrite aggregate_loop_suggestions. fold collected.
  split; [apply keep_first_text_NoDup|].
  split; [intros s; apply keep_first_text_In|].
  split.
  - intros pre s post -> Hs.
    destruct (keep_first_text_position pre post s Hs) as (post' & -> & Hpost).
    exists (keep_first String.eqb pre), post'.
    split; [reflexivity|]. split; [|exact Hpost].
    intros t. apply keep_first_text_In.
  - intros ->. reflexivity.
Qed.

Lemma suggestions_unique_in_first_seen_order_witness :
  let results :=
    [VDict [("suggestions", VList [VStr "A"; VStr "B"])];
     VDict [("suggestions", VList [VStr "A"; VStr "C"])]]%string in
  let report := mkAggregated [] [] [] ["A"; "B"; "C"]%string in
  _aggregate_reviews Samples.no_json Samples.no_repr results = Ok report
  /\ NoDup (suggestions report)
  /\ suggestions report = ["A"; "B"; "C"]%string.
Proof.
  intros results report.
  assert (H : _aggregate_reviews Samples.no_json Samples.no_repr results = Ok report)
    by reflexivity.
  split; [exact H|].
  pose proof (suggestions_unique_in_first_seen_order
                Samples.no_json Samples.no_repr results report H) as T.
  simpl in T. destruct T as (Hnd & _ & _ & Hex).
  split; [exact Hnd | exact (Hex eq_refl)].
Defined.

(** ** Issues with the same fields *)

Lemma key_lt_trans (a b c : string) : key_lt a b -> key_lt b c -> key_lt a c.
Proof.
  unfold key_lt. intros H1 H2.
  apply String_as_OT.cmp_lt. apply String_as_OT.cmp_lt in H1, H2.
  eapply String_as_OT.lt_trans; eassumption.
Qed.

Lemma key_lt_irrefl (a : string) : ~ key_lt a a.
Proof.
  unfold key_lt. intros H.
  assert (E : String.compare a a = Eq) by now apply String_as_OT.cmp_eq.
  congruence.
Qed.

Lemma leb_true_cases (a b : string) :
  String.leb a b = true -> a = b \/ key_lt a b.
Proof.
  unfold String.leb, key_lt.
  destruct (String.compare a b) eqn:E; intros H; try discriminate; auto.
  left. now apply String.compare_eq_iff.
Qed.

Lemma leb_false_lt (a b : string) : String.leb a b = false -> key_lt b a.
Proof.
  unfold String.leb, key_lt. rewrite (String.compare_antisym b a).
  destruct (String.compare a b); intros H; try discriminate. reflexivity.
Qed.

Lemma insert_item_perm (kv : string * value) (t : list (string * value)) :
  Permutation (PySet.insert_item kv t) (kv :: t).
Proof.
  induction t as [|kv' t IH]; simpl; [reflexivity|].
  destruct (String.leb (fst kv) (fst kv')); [reflexivity|].
  rewrite IH. apply perm_swap.
Qed.

Lemma sorted_items_perm (x : dict) : Permutation (PySet.sorted_items x) x.
Proof.
  induction x as [|kv x IH]; simpl; [reflexivity|].
  rewrite insert_item_perm. now constructor.
Qed.

Lemma ascending_insert (kv : string * value) (t : list (string * value)) :
  ascending t -> ~ In (fst kv) (map fst t) -> ascending (PySet.insert_item kv t).
Proof.
  induction t as [|kv' t IH]; simpl; intros Ht Hnew.
  - split; [constructor | exact I].
  - destruct Ht as [Habove Ht].
    destruct (String.leb (fst kv) (fst kv')) eqn:E.
    + apply leb_true_cases in E.
      destruct E as [E|E]; [exfalso; apply Hnew; left; now rewrite E|].
      simpl. split; [|split; assumption].
      constructor; [exact E|].
      eapply Forall_impl; [|exact Habove].
      intros kv'' H. eapply key_lt_trans; eassumption.
    + apply leb_false_lt in E. simpl. split.
      * eapply Permutation_Forall; [symmetry; apply insert_item_perm|].
        constructor; assumption.
      * apply IH; tauto.
Qed.

Lemma ascending_sorted_items (x : dict) :
  NoDup (map fst x) -> ascending (PySet.sorted_items x).
Proof.
  induction x as [|kv x IH]; simpl; intros Hx; [exact I|].
  inversion Hx as [|k ks Hk Hks]; subst.
  apply ascending_insert; [auto|].
  intros Hin. apply Hk.
  eapply Permutation_in; [|exact Hin].
  apply Permutation_map, sorted_items_perm.
Qed.

Lemma lookup_perm (t1 t2 : list (string * value)) (k : string) :
  Permutation t1 t2 -> NoDup (map fst t1) ->
  Py.dict_lookup t1 k = Py.dict_lookup t2 k.
Proof.
  induction 1 as [|[k1 v1] l l' Hp IH|[k1 v1] [k2 v2] l|l l' l'' H1 IH1 H2 IH2];
    simpl; intros Hnd.
  - reflexivity.
  - inversion Hnd; subst. now rewrite IH.
  - inversion Hnd as [|? ? Hk _]; subst. simpl in Hk.
    destruct (String.eqb_spec k1 k), (String.eqb_spec k2 k); subst; try reflexivity.
    tauto.
  - rewrite IH1 by assumption. apply IH2.
    eapply Permutation_NoDup; [|exact Hnd]. now apply Permutation_map.
Qed.

Lemma lookup_sorted_items (x : dict) (k : string) :
  NoDup (map fst x) ->
  Py.dict_lookup (PySet.sorted_items x) k = Py.dict_lookup x k.
Proof.
  intros Hx. symmetry. apply lookup_perm; [|exact Hx].
  symmetry. apply sorted_items_perm.
Qed.

Lemma lookup_above (t : list (string * value)) (k : string) :
  Forall (fun kv => key_lt k (fst kv)) t -> Py.dict_lookup t k = None.
Proof.
  induction 1 as [|[k' v'] t Hk _ IH]; simpl; [reflexivity|].
  destruct (String.eqb_spec k' k) as [->|_]; [|exact IH].
  now apply key_lt_irrefl in Hk.
Qed.

Lemma tuple_eqb_fields_match (t1 t2 : list (string * value)) :
  PySet.tuple_eqb t1 t2 = true ->
  forall k, fields_match (Py.dict_lookup t1 k) (Py.dict_lookup t2 k).
Proof.
  revert t2. induction t1 as [|[k1 v1] t1 IH]; intros [|[k2 v2] t2] H k;
    simpl in *; try discriminate; [exact I|].
  apply andb_true_iff in H. destruct H as [H Ht].
  apply andb_true_iff in H. destruct H as [Hk Hv].
  apply String.eqb_eq in Hk. subst k2.
  destruct (String.eqb k1 k); [exact Hv | now apply IH].
Qed.

Lemma ascending_fields_match (t1 t2 : list (string * value)) :
  ascending t1 -> ascending t2 ->
  (forall k, fields_match (Py.dict_lookup t1 k) (Py.dict_lookup t2 k)) ->
  PySet.tuple_eqb t1 t2 = true.
Proof.
  revert t2. induction t1 as [|[k1 v1] t1 IH]; intros [|[k2 v2] t2] H1 H2 H.
  - reflexivity.
  - specialize (H k2). simpl in H. now rewrite String.eqb_refl in H.
  - specialize (H k1). simpl in H. now rewrite String.eqb_refl in H.
  - simpl in H1, H2. destruct H1 as [A1 H1], H2 as [A2 H2].
    assert (Hk : k1 = k2).
    { destruct (String.compare k1 k2) eqn:E.
      - now apply String.compare_eq_iff.
      - exfalso. specialize (H k1). simpl in H. rewrite String.eqb_refl in H.
        destruct (String.eqb_spec k2 k1) as [->|_];
          [now apply key_lt_irrefl in E|].
        rewrite lookup_above in H; [exact H|].
        eapply Forall_impl; [|exact A2].
        intros kv Hkv. eapply key_lt_trans; eassumption.
      - exfalso. assert (E' : key_lt k2 k1).
        { unfold key_lt. rewrite String.compare_antisym, E. reflexivity. }
        specialize (H k2). simpl in H. rewrite String.eqb_refl in H.
        destruct (String.eqb_spec k1 k2) as [->|_];
          [now apply key_lt_irrefl in E'|].
        rewrite lookup_above in H; [exact H|].
        eapply Forall_impl; [|exact A1].
        intros kv Hkv. eapply key_lt_trans; eassumption. }
    subst k2. simpl. rewrite String.eqb_refl. simpl.
    pose proof (H k1) as Hv. simpl in Hv. rewrite String.eqb_refl in Hv.
    rewrite Hv. simpl. apply IH; [assumption..|].
    intros k. specialize (H k). simpl in H.
    destruct (String.eqb_spec k1 k) as [->|_]; [|exact H].
    rewrite !lookup_above by assumption. exact I.
Qed.

(** Two issues have the same fields exactly when they hold the same field
    names with equal values, in whatever order the fields were written. *)
Lemma same_fields_iff (x y : dict) :
  NoDup (map fst x) -> NoDup (map fst y) ->
  (same_fields x y = true <->
   forall k, fields_match (Py.dict_lookup x k) (Py.dict_lookup y k)).
Proof.
  intros Hx Hy. unfold same_fields. split.
  - intros H k. rewrite <- (lookup_sorted_items x k Hx), <- (lookup_sorted_items y k Hy).
    now apply tuple_eqb_fields_match.
  - intros H. apply ascending_fields_match; try now apply ascending_sorted_items.
    intros k. rewrite (lookup_sorted_items x k Hx), (lookup_sorted_items y k Hy).
    apply H.
Qed.

(** ** The final pass *)

(** C8.  The final pass is idempotent: run on a state it has itself
    produced, it returns that state again.  What it produces is, bucket by
    bucket, the first occurrences in their order, where two issues are
    duplicates exactly when their items, sorted by field name, are equal pair
    by pair; and for the suggestions the first occurrences of the texts.
    For issues with pairwise distinct field names, as every dict has them,
    the items are equal pair by pair exactly when both issues hold the same
    field names with equal values. *)
Theorem remove_duplicates_idempotent :
  forall (st st' : aggregated),
    remove_duplicates st = Ok st' ->
    remove_duplicates st' = Ok st'
    /\ high_priority st' = keep_first same_fields (high_priority st)
    /\ medium_priority st' = keep_first same_fields (medium_priority st)
    /\ low_priority st' = keep_first same_fields (low_priority st)
    /\ suggestions st' = keep_first String.eqb (suggestions st)
    /\ (forall x y : dict,
           NoDup (map fst x) -> NoDup (map fst y) ->
           (same_fields x y = true <->
            forall k, fields_match (Py.dict_lookup x k) (Py.dict_lookup y k))).
Proof.
  intros st st' H. rewrite remove_duplicates_spec in H.
  destruct (hashable_state st) eqn:Hst; [|discriminate].
  injection H as <-. simpl. split; [|auto 10 using same_fields_iff].
  rewrite remove_duplicates_spec.
  unfold hashable_state in *. simpl.
  apply andb_true_iff in Hst. destruct Hst as [Hst Hl].
  apply andb_true_iff in Hst. destruct Hst as [Hh Hm].
  rewrite !forallb_keep_first by assumption. simpl.
  rewrite !(keep_first_idem same_fields same_fields_sym same_fields_trans).
  rewrite (keep_first_idem String.eqb String.eqb_sym string_eqb_trans).
  reflexivity.
Qed.

Lemma remove_duplicates_idempotent_witness :
  let issue := [("description", VStr "No input validation");
                ("severity", VStr "high"); ("line", VInt 3)]%string in
  let reordered := [("severity", VStr "high"); ("line", VInt 3);
                    ("description", VStr "No input validation")]%string in
  let st := mkAggregated [issue; reordered] [] [issue]
                         ["Add tests"; "Add tests"]%string in
  let st' := mkAggregated [issue] [] [issue] ["Add tests"]%string in
  remove_duplicates st = Ok st' /\ remove_duplicates st' = Ok st'.
Proof.
  intros issue reordered st st'.
  assert (H : remove_duplicates st = Ok st') by reflexivity.
  split; [exact H|].
  exact (proj1 (remove_duplicates_idempotent st st' H)).
Defined.

(** ** Text without the issues marker *)

(** C9.  A text that [json.loads] rejects and that does not contain
    "issues" in any letter case adds nothing: its turn of the loop leaves
    the state as it was, without an exception, whatever else the text holds,
    and the report is the report of the other results. *)
Theorem text_without_issues_marker_adds_nothing :
  forall (json_loads : string -> option value) (repr : value -> string)
         (text : string),
    json_loads text = None ->
    PyStr.contains "issues" (PyStr.lower text) = false ->
    (forall st, process_result json_loads repr (VStr text) st = (st, Ok tt))
    /\ contribution json_loads repr (VStr text) = empty_aggregated
    /\ (forall before after,
           _aggregate_reviews json_loads repr (before ++ VStr text :: after) =
           _aggregate_reviews json_loads repr (before ++ after)).
Proof.
  intros json_loads repr text Hjson Hno.
  assert (Hp : forall st, process_result json_loads repr (VStr text) st = (st, Ok tt)).
  { intros st. unfold process_result, parse, extract_from_text.
    now rewrite Hjson, Hno. }
  split; [exact Hp|].
  split; [unfold contribution, try_continue; now rewrite Hp|].
  intros before after. unfold _aggregate_reviews, aggregate_loop.
  rewrite !fold_left_app. simpl. unfold try_continue at 2.
  now rewrite Hp.
Qed.

Lemma text_without_issues_marker_adds_nothing_witness :
  Samples.no_json Samples.suggestions_only = None
  /\ PyStr.contains "issues" (PyStr.lower Samples.suggestions_only) = false
  /\ contribution Samples.no_json Samples.no_repr (VStr Samples.suggestions_only)
     = empty_aggregated.
Proof.
  split; [reflexivity|]. split; [reflexivity|].
  exact (proj1 (proj2 (text_without_issues_marker_adds_nothing
                         Samples.no_json Samples.no_repr Samples.suggestions_only
                         eq_refl eq_refl))).
Defined.

(** ** Suggestions that are not a list *)

Lemma for_each_classify_suggestions (items : list value) (st : aggregated) :
  suggestions (fst (for_each items classify_issue st)) = suggestions st.
Proof.
  revert st. induction items as [|issue items IH]; intros st; simpl; [reflexivity|].
  unfold bind. destruct (classify_issue issue st) as [st1 [[]|e]] eqn:Hc;
    [rewrite IH|]; simpl;
    (destruct issue; simpl in Hc; try (injection Hc as <-; reflexivity));
    unfold bind, lift in Hc;
    (destruct (Py.lower (Py.dict_get d "severity" (VStr "low"))) as [sev|e'];
     [|injection Hc as <-; reflexivity]);
    (destruct (String.eqb sev "high");
     [|destruct (String.eqb sev "medium")]); injection Hc as <-; reflexivity.
Qed.

Lemma process_issues_suggestions (review_data : value) (st : aggregated) :
  suggestions (fst (process_issues review_data st)) = suggestions st.
Proof.
  unfold process_issues, bind, lift.
  destruct (Py.get review_data "issues" (VList [])) as [issues|e]; [|reflexivity].
  destruct (Py.iter issues) as [items|e]; [|reflexivity].
  apply for_each_classify_suggestions.
Qed.

(** C10.  When the suggestions of the unwrapped mapping are not a list, the
    suggestions step changes nothing and raises nothing, so the result adds
    no suggestion (a text is not split into its characters), and its turn
    ends the way its issues step ends. *)
Theorem non_list_suggestions_are_ignored :
  forall (json_loads : string -> option value) (repr : value -> string)
         (result : value) (d rd : dict),
    parse json_loads result = VDict d ->
    Py.dict_get d "review" (VDict d) = VDict rd ->
    Py.isinstance_list (Py.dict_get rd "suggestions" (VList [])) = false ->
    (forall st, process_suggestions repr (VDict rd) st = (st, Ok tt))
    /\ (forall st,
           suggestions (try_continue (process_result json_loads repr result) st)
           = suggestions st)
    /\ (forall st,
           process_result json_loads repr result st = process_issues (VDict rd) st).
Proof.
  intros json_loads repr result d rd Hparse Hreview Hnot.
  assert (Hs : forall st, process_suggestions repr (VDict rd) st = (st, Ok tt)).
  { intros st. unfold process_suggestions, bind, lift. simpl.
    destruct (Py.dict_get rd "suggestions" (VList [])); try reflexivity.
    discriminate. }
  assert (Hp : forall st,
             process_result json_loads repr result st = process_issues (VDict rd) st).
  { intros st. unfold process_result. rewrite Hparse. simpl. rewrite Hreview.
    unfold bind. destruct (process_issues (VDict rd) st) as [st1 [[]|e]];
      [apply Hs | reflexivity]. }
  split; [exact Hs|]. split; [|exact Hp].
  intros st. unfold try_continue. rewrite Hp. apply process_issues_suggestions.
Qed.

Lemma non_list_suggestions_are_ignored_witness :
  let result :=
    VDict [("issues", VList [Samples.issue_high]);
           ("suggestions", VStr "Add tests")]%string in
  suggestions (contribution Samples.no_json Samples.no_repr result) = []
  /\ high_priority (contribution Samples.no_json Samples.no_repr result)
     = [[("description", VStr "No input validation"); ("severity", VStr "high");
         ("line", VInt 3)]]%string.
Proof.
  intros result. split; [|reflexivity].
  exact (proj1 (proj2 (non_list_suggestions_are_ignored
                         Samples.no_json Samples.no_repr result _ _
                         eq_refl eq_refl eq_refl)) empty_aggregated).
Defined.

(** ** Dispatch *)

(** C5 as stated fails: the result of a failing reviewer is not the plain
    mapping of empty issues and suggestions; that mapping sits under a
    [review] key. *)
Lemma failing_reviewer_result_is_wrapped :
  nth_error (review_results Samples.third_fails new_swarm "x = 1" "a.py") 2
  = Some failed_review
  /\ failed_review <> empty_result.
Proof. split; [reflexivity | discriminate]. Qed.

(** C5, amended.  For every roster and every pattern of failing calls,
    dispatch returns one result per roster entry, in roster order: at the
    place of an agent whose call returned, the response; at the place of an
    agent whose call failed, the mapping with a [review] field that holds
    empty issues and empty suggestions.  Such a result adds nothing to the
    report. *)
Theorem dispatch_one_result_per_agent :
  forall (achat : Agent -> string -> call_outcome)
         (json_loads : string -> option value) (repr : value -> string)
         (self : CodeReviewSwarm) (code file_path : string),
    length (review_results achat self code file_path) = length (agents self)
    /\ (forall i agent,
           nth_error (agents self) i = Some agent ->
           nth_error (review_results achat self code file_path) i =
           Some (match achat agent (review_task code file_path) with
                 | Returned response => response
                 | Failed _ =>
                     VDict [("review",
                             VDict [("issues", VList []); ("suggestions", VList [])])]
                 end))
    /\ contribution json_loads repr failed_review = empty_aggregated.
Proof.
  intros achat json_loads repr self code file_path.
  unfold review_results. split; [apply length_map|]. split; [|reflexivity].
  intros i agent H. rewrite nth_error_map, H. reflexivity.
Qed.

Lemma dispatch_one_result_per_agent_witness :
  length (review_results Samples.third_fails new_swarm "x = 1" "a.py") = 5%nat
  /\ nth_error (review_results Samples.third_fails new_swarm "x = 1" "a.py") 2
     = Some (VDict [("review",
                     VDict [("issues", VList []); ("suggestions", VList [])])]).
Proof.
  pose proof (dispatch_one_result_per_agent
                Samples.third_fails Samples.no_json Samples.no_repr
                new_swarm "x = 1" "a.py") as (Hlen & Hnth & _).
  split; [exact Hlen|].
  exact (Hnth 2%nat _ eq_refl).
Defined.

(** ** Issues that cannot be hashed *)

(** [_aggregate_reviews] returns a report exactly when every issue that the
    loop put into a bucket can be hashed. *)
Lemma aggregate_returns_iff_hashable
      (json_loads : string -> option value) (repr : value -> string)
      (results : list value) :
  (exists report, _aggregate_reviews json_loads repr results = Ok report)
  <-> hashable_state (aggregate_loop json_loads repr results empty_aggregated) = true.
Proof.
  unfold _aggregate_reviews. rewrite remove_duplicates_spec.
  destruct (hashable_state _); split; intros H; eauto; try discriminate.
  destruct H as [report H]. discriminate.
Qed.

(** C1.  A result that is a dict with one issue that has a list among its
    field values: the loop puts the issue into a bucket, and the final pass
    raises [TypeError] when it hashes the issue's items.  The call raises
    instead of returning a report. *)
Theorem aggregate_raises_on_list_valued_field :
  forall (json_loads : string -> option value) (repr : value -> string),
    _aggregate_reviews json_loads repr
      [VDict [("issues", VList [Samples.issue_with_list])]]
    = Raise TypeError.
Proof. intros json_loads repr. reflexivity. Qed.

(** ** Letters and their lower case *)

Lemma in_all_ascii (c : ascii) : In c all_ascii.
Proof.
  unfold all_ascii. rewrite <- (ascii_nat_embedding c).
  apply in_map, in_seq. pose proof (nat_ascii_bounded c). lia.
Qed.

Lemma forall_ascii (p : ascii -> bool) :
  forallb p all_ascii = true -> forall c, p c = true.
Proof. intros H c. rewrite forallb_forall in H. apply H, in_all_ascii. Qed.

Lemma lower_char_small_letter (c w : ascii) :
  small_letter w = true ->
  Ascii.eqb (PyStr.lower_char c) w = (Ascii.eqb c w || Ascii.eqb c (capital w)).
Proof.
  intros Hw.
  assert (H : implb (small_letter w)
                    (Bool.eqb (Ascii.eqb (PyStr.lower_char c) w)
                              (Ascii.eqb c w || Ascii.eqb c (capital w))) = true).
  { revert w Hw. revert c.
    assert (G : forallb (fun c => forallb (fun w =>
                  implb (small_letter w)
                        (Bool.eqb (Ascii.eqb (PyStr.lower_char c) w)
                                  (Ascii.eqb c w || Ascii.eqb c (capital w))))
                  all_ascii) all_ascii = true) by (vm_compute; reflexivity).
    intros c w _.
    apply (forall_ascii _ (forall_ascii _ G c) w). }
  rewrite Hw in H. simpl in H. now apply Bool.eqb_prop in H.
Qed.

Lemma lower_any_case (word s : string) :
  forallb small_letter (list_ascii_of_string word) = true ->
  String.eqb (PyStr.lower s) word = any_case word s.
Proof.
  revert s. induction word as [|w word IH]; intros s Hw.
  - now destruct s.
  - simpl in Hw. apply andb_true_iff in Hw. destruct Hw as [Hw Hword].
    destruct s as [|c s]; [reflexivity|]. simpl.
    rewrite (lower_char_small_letter c w Hw), (IH s Hword).
    reflexivity.
Qed.

(** ** Classification by severity *)

(** C6 as stated fails: an issue whose severity is [null] lands in no
    bucket at all, [low_priority] included. *)
Lemma null_severity_issue_is_dropped :
  (forall st, classify_issue Samples.issue_null_severity st = (st, Raise AttributeError))
  /\ _aggregate_reviews Samples.no_json Samples.no_repr
       [VDict [("issues", VList [Samples.issue_null_severity])]]
     = Ok empty_aggregated.
Proof. split; reflexivity. Qed.

(** C6, amended.  For every issue that is a mapping whose severity is text
    or absent (then it counts as "low"): the issue is appended to exactly one
    bucket, chosen by the severity alone: [high_priority] when the severity
    is "high" in any letter case, [medium_priority] when it is "medium" in
    any letter case, [low_priority] for every other text; the other buckets
    and the suggestions stay as they are and nothing is raised.  An issue
    whose severity is present and not text goes to no bucket: classifying it
    raises and leaves the state as it is. *)
Theorem issue_bucket_by_text_severity :
  (forall (d : dict) (severity : string),
      Py.dict_get d "severity" (VStr "low") = VStr severity ->
      forall st,
        classify_issue (VDict d) st =
        (if any_case "high" severity
         then mkAggregated (high_priority st ++ [d]) (medium_priority st)
                           (low_priority st) (suggestions st)
         else if any_case "medium" severity
              then mkAggregated (high_priority st) (medium_priority st ++ [d])
                                (low_priority st) (suggestions st)
              else mkAggregated (high_priority st) (medium_priority st)
                                (low_priority st ++ [d]) (suggestions st),
         Ok tt))
  /\ (forall (d : dict) (v : value),
         Py.dict_lookup d "severity" = Some v ->
         Py.isinstance_str v = false ->
         forall st, classify_issue (VDict d) st = (st, Raise AttributeError)).
Proof.
  split.
  - intros d severity Hsev st.
    unfold classify_issue, bind, lift. rewrite Hsev. unfold Py.lower.
    rewrite (lower_any_case "high" severity eq_refl).
    rewrite (lower_any_case "medium" severity eq_refl).
    destruct (any_case "high" severity); [reflexivity|].
    destruct (any_case "medium" severity); reflexivity.
  - intros d v Hv Hnot st.
    unfold classify_issue, bind, lift, Py.dict_get. rewrite Hv.
    destruct v; try reflexivity. discriminate.
Qed.

Lemma issue_bucket_by_text_severity_witness :
  let shouted := [("description", VStr "a"); ("severity", VStr "HIGH")]%string in
  let mixed := [("description", VStr "b"); ("severity", VStr "MeDium")]%string in
  let unknown := [("description", VStr "c"); ("severity", VStr "critical")]%string in
  let missing := [("description", VStr "d")]%string in
  let numbered := [("description", VStr "e"); ("severity", VInt 1)]%string in
  fst (classify_issue (VDict shouted) empty_aggregated)
  = mkAggregated [shouted] [] [] []
  /\ fst (classify_issue (VDict mixed) empty_aggregated)
     = mkAggregated [] [mixed] [] []
  /\ fst (classify_issue (VDict unknown) empty_aggregated)
     = mkAggregated [] [] [unknown] []
  /\ fst (classify_issue (VDict missing) empty_aggregated)
     = mkAggregated [] [] [missing] []
  /\ classify_issue (VDict numbered) empty_aggregated
     = (empty_aggregated, Raise AttributeError).
Proof.
  intros shouted mixed unknown missing numbered.
  destruct issue_bucket_by_text_severity as [Htext Hother].
  rewrite (Htext shouted "HIGH" eq_refl).
  rewrite (Htext mixed "MeDium" eq_refl).
  rewrite (Htext unknown "critical" eq_refl).
  rewrite (Htext missing "low" eq_refl).
  do 4 (split; [reflexivity|]).
  exact (Hother numbered (VInt 1) eq_refl eq_refl empty_aggregated).
Defined.

(** ** The review field *)

(** C3 as stated fails: with a [review] field that is text, the issues and
    suggestions at the top level are not used; the result adds nothing. *)
Lemma text_review_hides_top_level :
  _aggregate_reviews Samples.no_json Samples.no_repr [Samples.review_is_text]
  = Ok empty_aggregated
  /\ _aggregate_reviews Samples.no_json Samples.no_repr
       [VDict [("issues", VList [Samples.issue_high]);
               ("suggestions", VList [VStr "Add tests"])]]
     = Ok (mkAggregated
             [[("description", VStr "No input validation");
               ("severity", VStr "high"); ("line", VInt 3)]] [] []
             ["Add tests"]%string).
Proof. split; reflexivity. Qed.

(** C3, amended.  For every normalized mapping result: with a [review]
    field that is a mapping, the result is processed as the plain mapping of
    that nested mapping's issues and suggestions; without a [review] field,
    as the plain mapping of its own issues and suggestions; with a [review]
    field that is not a mapping, processing raises before anything is added,
    so the result adds nothing. *)
Theorem review_field_selects_source :
  forall (json_loads : string -> option value) (repr : value -> string)
         (result : value) (d : dict),
    parse json_loads result = VDict d ->
    (forall rd, Py.dict_lookup d "review" = Some (VDict rd) ->
       forall st, process_result json_loads repr result st =
                  process_result json_loads repr (source_of rd) st)
    /\ (Py.dict_lookup d "review" = None ->
        forall st, process_result json_loads repr result st =
                   process_result json_loads repr (source_of d) st)
    /\ (forall v, Py.dict_lookup d "review" = Some v ->
                  Py.isinstance_dict v = false ->
        forall st, process_result json_loads repr result st =
                   (st, Raise AttributeError)).
Proof.
  intros json_loads repr result d Hparse.
  unfold process_result. rewrite Hparse.
  unfold process_structured, Py.dict_get.
  repeat split.
  - intros rd Hrd st. rewrite Hrd. reflexivity.
  - intros Hnone st. rewrite Hnone. reflexivity.
  - intros v Hv Hnot st. rewrite Hv. destruct v; try reflexivity. discriminate.
Qed.

Lemma review_field_selects_source_witness :
  let nested := [("issues", VList [Samples.issue_high]);
                 ("suggestions", VList [VStr "Add tests"])]%string in
  let wrapped := VDict [("review", VDict nested); ("issues", VList [VInt 7])]%string in
  contribution Samples.no_json Samples.no_repr wrapped
  = contribution Samples.no_json Samples.no_repr (source_of nested)
  /\ contribution Samples.no_json Samples.no_repr (VDict nested)
     = contribution Samples.no_json Samples.no_repr (source_of nested)
  /\ contribution Samples.no_json Samples.no_repr Samples.review_is_text
     = empty_aggregated.
Proof.
  intros nested wrapped. unfold contribution, try_continue.
  pose proof (review_field_selects_source
                Samples.no_json Samples.no_repr wrapped _ eq_refl) as (Hw & _ & _).
  pose proof (review_field_selects_source
                Samples.no_json Samples.no_repr (VDict nested) _ eq_refl) as (_ & Hn & _).
  pose proof (review_field_selects_source
                Samples.no_json Samples.no_repr Samples.review_is_text _ eq_refl)
    as (_ & _ & Ht).
  split; [exact (f_equal fst (Hw nested eq_refl empty_aggregated))|].
  split; [exact (f_equal fst (Hn eq_refl empty_aggregated))|].
  exact (f_equal fst (Ht _ eq_refl eq_refl empty_aggregated)).
Defined.

(** ** A result whose processing raises *)

Lemma for_each_raise {A : Type} (body : A -> M unit) (items : list A)
      (st st' : aggregated) (e : exn) :
  for_each items body st = (st', Raise e) ->
  exists done bad rest st1,
    items = done ++ bad :: rest
    /\ for_each done body st = (st1, Ok tt)
    /\ body bad st1 = (st', Raise e).
Proof.
  revert st. induction items as [|x items IH]; intros st H; simpl in H.
  - discriminate.
  - unfold bind in H. destruct (body x st) as [st1 [[]|e1]] eqn:Hx.
    + destruct (IH st1 H) as (done & bad & rest & st2 & -> & Hdone & Hbad).
      exists (x :: done), bad, rest, st2. simpl. unfold bind.
      rewrite Hx. auto.
    + injection H as <- <-. exists [], x, items, st. simpl. auto.
Qed.

Lemma classify_issue_raise (issue : value) (st st' : aggregated) (e : exn) :
  classify_issue issue st = (st', Raise e) -> st' = st.
Proof.
  destruct issue; simpl; try discriminate.
  unfold bind, lift.
  destruct (Py.lower (Py.dict_get d "severity" (VStr "low"))) as [sev|e'].
  - destruct (String.eqb sev "high"); [discriminate|].
    destruct (String.eqb sev "medium"); discriminate.
  - now intros [= <- _].
Qed.

Lemma process_suggestions_dict (repr : value -> string) (rd : dict)
      (st : aggregated) :
  snd (process_suggestions repr (VDict rd) st) = Ok tt.
Proof.
  unfold process_suggestions, bind, lift. simpl.
  now destruct (Py.dict_get rd "suggestions" (VList [])).
Qed.

(** When the processing of a structured result raises, it is the issues
    step that raised. *)
Lemma process_structured_raise (repr : value -> string) (d : dict)
      (st st' : aggregated) (e : exn) :
  process_structured repr (VDict d) st = (st', Raise e) ->
  process_issues (Py.dict_get d "review" (VDict d)) st = (st', Raise e).
Proof.
  simpl. unfold bind.
  destruct (process_issues (Py.dict_get d "review" (VDict d)) st)
    as [st1 [[]|e1]] eqn:Hi; [|auto].
  intros H. exfalso.
  destruct (Py.dict_get d "review" (VDict d)) as [| | | | |rd] eqn:Hr;
    try discriminate Hi.
  pose proof (process_suggestions_dict repr rd st1) as Hs.
  rewrite H in Hs. discriminate.
Qed.

(** C4 as stated fails: a result that raises at its second issue has
    already put its first issue into a bucket, and the issue stays there. *)
Lemma raising_result_keeps_earlier_issues :
  let result :=
    VDict [("issues", VList [Samples.issue_high; Samples.issue_null_severity])]%string in
  snd (process_result Samples.no_json Samples.no_repr result empty_aggregated)
  = Raise AttributeError
  /\ _aggregate_reviews Samples.no_json Samples.no_repr [result]
     = Ok (mkAggregated
             [[("description", VStr "No input validation");
               ("severity", VStr "high"); ("line", VInt 3)]] [] [] [])%string
  /\ _aggregate_reviews Samples.no_json Samples.no_repr [result]
     <> _aggregate_reviews Samples.no_json Samples.no_repr [].
Proof. repeat split; discriminate. Qed.

(** C4, amended.  When the processing of one result raises: what the prior
    results put into the state stays as it was, each bucket and the
    suggestions only growing at the end by what the result contributes; the
    result contributes no suggestion; and it contributes to the buckets
    exactly the issues that were classified before the entry at which the
    exception was raised, the rest of the result being skipped. *)
Theorem raising_result_keeps_prior_state :
  forall (json_loads : string -> option value) (repr : value -> string)
         (result : value) (st : aggregated) (e : exn),
    snd (process_result json_loads repr result st) = Raise e ->
    try_continue (process_result json_loads repr result) st
    = agg_app st (contribution json_loads repr result)
    /\ suggestions (contribution json_loads repr result) = []
    /\ (forall d rd items,
           parse json_loads result = VDict d ->
           Py.dict_get d "review" (VDict d) = VDict rd ->
           Py.iter (Py.dict_get rd "issues" (VList [])) = Ok items ->
           exists done bad rest,
             items = done ++ bad :: rest
             /\ for_each done classify_issue empty_aggregated
                = (contribution json_loads repr result, Ok tt)
             /\ classify_issue bad (contribution json_loads repr result)
                = (contribution json_loads repr result, Raise e)).
Proof.
  intros json_loads repr result st e Hraise.
  split; [apply try_continue_contribution|].
  rewrite (appends_only_result json_loads repr result st) in Hraise.
  simpl in Hraise.
  unfold contribution, try_continue.
  destruct (process_result json_loads repr result empty_aggregated)
    as [c out] eqn:Hc.
  simpl in Hraise. subst out. simpl.
  unfold process_result in Hc.
  destruct (parse json_loads result) as [| | | | |d] eqn:Hparse;
    try discriminate Hc.
  apply process_structured_raise in Hc.
  split.
  - pose proof (process_issues_suggestions
                  (Py.dict_get d "review" (VDict d)) empty_aggregated) as Hs.
    rewrite Hc in Hs. exact Hs.
  - intros d' rd items [= <-] Hrd Hitems.
    rewrite Hrd in Hc. unfold process_issues, bind, lift in Hc.
    simpl in Hc. rewrite Hitems in Hc.
    destruct (for_each_raise _ _ _ _ _ Hc) as (done & bad & rest & st1 & Hsplit & Hdone & Hbad).
    pose proof (classify_issue_raise _ _ _ _ Hbad) as ->.
    exists done, bad, rest. auto.
Qed.

Lemma raising_result_keeps_prior_state_witness :
  let prior := VDict [("issues", VList [Samples.issue_high]);
                      ("suggestions", VList [VStr "Add tests"])]%string in
  let result :=
    VDict [("issues", VList [Samples.issue_high; Samples.issue_null_severity]);
           ("suggestions", VList [VStr "Never reached"])]%string in
  let st := contribution Samples.no_json Samples.no_repr prior in
  snd (process_result Samples.no_json Samples.no_repr result st) = Raise AttributeError
  /\ try_continue (process_result Samples.no_json Samples.no_repr result) st
     = agg_app st (contribution Samples.no_json Samples.no_repr result)
  /\ suggestions (contribution Samples.no_json Samples.no_repr result) = [].
Proof.
  intros prior result st.
  assert (H : snd (process_result Samples.no_json Samples.no_repr result st)
              = Raise AttributeError) by reflexivity.
  split; [exact H|].
  pose proof (raising_result_keeps_prior_state
                Samples.no_json Samples.no_repr result st AttributeError H)
    as (Hprior & Hsugg & _).
  split; [exact Hprior | exact Hsugg].
Defined.

(** ** Facts about texts *)

Lemma text_length_app (a b : string) :
  String.length (a ++ b)%string = (String.length a + String.length b)%nat.
Proof. induction a as [|c a IH]; simpl; [reflexivity | now rewrite IH]. Qed.









Lemma find_ge (s sub : string) : -1 <= PyStr.find s sub.
Proof.
  induction s as [|c s IH]; cbn [PyStr.find].
  - destruct (PyStr.startswith "" sub); lia.
  - destruct (PyStr.startswith (String c s) sub); [lia|].
    destruct (PyStr.find s sub <? 0) eqn:E; [lia|]. apply Z.ltb_ge in E. lia.
Qed.



Lemma substring_middle (p q r : string) :
  String.substring (String.length p) (String.length q) (p ++ q ++ r)%string = q.
Proof.
  induction p as [|c p IH]; simpl.
  - induction q as [|c q IHq]; simpl.
    + now destruct r.
    + now rewrite IHq.
  - destruct (String.length q); exact IH.
Qed.



Lemma text_app_empty_r (a : string) : (a ++ "")%string = a.
Proof. induction a as [|c a IH]; simpl; [reflexivity | now rewrite IH]. Qed.



(** ** Lines that start with a marker *)







(** ** Text blobs *)












(** ** How the loop composes *)

Lemma issues_of_agg_app (b : bucket) (st1 st2 : aggregated) :
  issues_of b (agg_app st1 st2) = issues_of b st1 ++ issues_of b st2.
Proof. now destruct b. Qed.

Lemma hashable_state_agg_app (st1 st2 : aggregated) :
  hashable_state (agg_app st1 st2) = hashable_state st1 && hashable_state st2.
Proof.
  unfold hashable_state, agg_app. simpl. rewrite !forallb_app.
  destruct (forallb hashable_issue (high_priority st1)),
           (forallb hashable_issue (medium_priority st1)),
           (forallb hashable_issue (low_priority st1)),
           (forallb hashable_issue (high_priority st2)),
           (forallb hashable_issue (medium_priority st2)); reflexivity.
Qed.

Lemma aggregate_loop_split (json_loads : string -> option value)
      (repr : value -> string) (first second : list value) (st : aggregated) :
  aggregate_loop json_loads repr (first ++ second) st =
  agg_app (aggregate_loop json_loads repr first st)
          (aggregate_loop json_loads repr second empty_aggregated).
Proof.
  unfold aggregate_loop at 1. rewrite fold_left_app.
  fold (aggregate_loop json_loads repr first st).
  apply (aggregate_loop_app json_loads repr second).
Qed.

(** X6.  The loop over a sequence of results followed by another leaves
    what the first leaves, followed bucket by bucket by what the second
    leaves when run on empty buckets: what a result adds does not depend on
    the results before it. *)
Theorem aggregate_loop_of_concatenation :
  forall (json_loads : string -> option value) (repr : value -> string)
         (first second : list value) (st : aggregated),
    aggregate_loop json_loads repr (first ++ second) st =
    agg_app (aggregate_loop json_loads repr first st)
            (aggregate_loop json_loads repr second empty_aggregated).
Proof.
  intros json_loads repr first second st. apply aggregate_loop_split.
Qed.

Lemma aggregate_loop_issues (json_loads : string -> option value)
      (repr : value -> string) (b : bucket) (results : list value) :
  issues_of b (aggregate_loop json_loads repr results empty_aggregated) =
  flat_map (fun r => issues_of b (contribution json_loads repr r)) results.
Proof.
  induction results as [|r results IH]; [now destruct b|].
  rewrite aggregate_loop_cons, agg_app_empty_l, issues_of_agg_app, IH.
  reflexivity.
Qed.

Lemma aggregate_loop_hashable (json_loads : string -> option value)
      (repr : value -> string) (results : list value) :
  hashable_state (aggregate_loop json_loads repr results empty_aggregated) =
  forallb (fun r => hashable_state (contribution json_loads repr r)) results.
Proof.
  induction results as [|r results IH]; [reflexivity|].
  rewrite aggregate_loop_cons, agg_app_empty_l, hashable_state_agg_app, IH.
  reflexivity.
Qed.

(** X4.  [_aggregate_reviews] returns a report exactly when every issue
    that every single result contributes can be hashed; when it does not
    return, the exception is [TypeError], never another one. *)
Theorem aggregate_returns_or_type_error :
  forall (json_loads : string -> option value) (repr : value -> string)
         (results : list value),
    ((exists report, _aggregate_reviews json_loads repr results = Ok report)
     <-> forall r, In r results ->
                   hashable_state (contribution json_loads repr r) = true)
    /\ ((exists report, _aggregate_reviews json_loads repr results = Ok report)
        \/ _aggregate_reviews json_loads repr results = Raise TypeError).
Proof.
  intros json_loads repr results.
  unfold _aggregate_reviews. rewrite remove_duplicates_spec.
  rewrite aggregate_loop_hashable, <- forallb_forall.
  destruct (forallb _ results); split; eauto.
  - split; eauto.
  - split; [intros [report H]|]; discriminate.
Qed.

(** ** Where issues end up *)

Lemma classify_issue_text (d : dict) (s : string) (st : aggregated) :
  severity_text d = Some s ->
  classify_issue (VDict d) st = (add_issue (bucket_of_severity s) d st, Ok tt).
Proof.
  unfold severity_text. intros H.
  destruct (Py.dict_get d "severity" (VStr "low")) as [| | |s'| |] eqn:Hsev;
    try discriminate.
  injection H as ->.
  unfold classify_issue, bind, lift, bucket_of_severity. rewrite Hsev.
  unfold Py.lower.
  rewrite (lower_any_case "high" s eq_refl), (lower_any_case "medium" s eq_refl).
  destruct (any_case "high" s); [reflexivity|].
  destruct (any_case "medium" s); reflexivity.
Qed.

(** One step of the classification: the state stays, or one issue goes to
    the bucket of its severity. *)
Lemma classify_issue_step (issue : value) (st : aggregated) :
  fst (classify_issue issue st) = st
  \/ exists d s, issue = VDict d /\ severity_text d = Some s
                 /\ fst (classify_issue issue st)
                    = add_issue (bucket_of_severity s) d st.
Proof.
  destruct issue as [| | | | |d]; try (left; reflexivity).
  destruct (severity_text d) as [s|] eqn:Hs.
  - right. exists d, s. rewrite (classify_issue_text d s st Hs). auto.
  - left. unfold severity_text in Hs. unfold classify_issue, bind, lift.
    destruct (Py.dict_get d "severity" (VStr "low")); try reflexivity.
    discriminate.
Qed.

Lemma well_bucketed_add (b : bucket) (d : dict) (s : string) (st : aggregated) :
  severity_text d = Some s -> bucket_of_severity s = b ->
  well_bucketed st -> well_bucketed (add_issue b d st).
Proof.
  intros Hs Hb Hst b' d' Hin.
  assert (Hcases : In d' (issues_of b' st) \/ (b' = b /\ d' = d)).
  { destruct b, b'; simpl in Hin; try (left; exact Hin);
      apply in_app_or in Hin; destruct Hin as [Hin|[<-|[]]]; auto. }
  destruct Hcases as [Hold|[-> ->]]; [now apply Hst|].
  exists s. auto.
Qed.

Lemma well_bucketed_for_each (items : list value) (st : aggregated) :
  well_bucketed st -> well_bucketed (fst (for_each items classify_issue st)).
Proof.
  revert st. induction items as [|issue items IH]; intros st Hst; [exact Hst|].
  simpl. unfold bind.
  assert (H1 : well_bucketed (fst (classify_issue issue st))).
  { destruct (classify_issue_step issue st) as [->|(d & s & _ & Hs & ->)];
      [exact Hst|]. now apply (well_bucketed_add _ d s). }
  destruct (classify_issue issue st) as [st1 [[]|e]]; simpl in *;
    [now apply IH | exact H1].
Qed.

Lemma well_bucketed_issues (review_data : value) (st : aggregated) :
  well_bucketed st -> well_bucketed (fst (process_issues review_data st)).
Proof.
  intros Hst. unfold process_issues, bind, lift.
  destruct (Py.get review_data "issues" (VList [])) as [issues|e]; [|exact Hst].
  destruct (Py.iter issues) as [items|e]; [|exact Hst].
  now apply well_bucketed_for_each.
Qed.

Lemma process_suggestions_buckets (repr : value -> string) (review_data : value)
      (st : aggregated) (b : bucket) :
  issues_of b (fst (process_suggestions repr review_data st)) = issues_of b st.
Proof.
  unfold process_suggestions, bind, lift.
  destruct (Py.get review_data "suggestions" (VList [])) as [v|e]; [|reflexivity].
  destruct v; reflexivity.
Qed.

Lemma well_bucketed_result (json_loads : string -> option value)
      (repr : value -> string) (result : value) (st : aggregated) :
  well_bucketed st ->
  well_bucketed (try_continue (process_result json_loads repr result) st).
Proof.
  intros Hst. unfold try_continue, process_result.
  destruct (parse json_loads result) as [| | | | |d]; try exact Hst.
  simpl. unfold bind.
  pose proof (well_bucketed_issues (Py.dict_get d "review" (VDict d)) st Hst) as H1.
  destruct (process_issues (Py.dict_get d "review" (VDict d)) st)
    as [st1 [[]|e]]; simpl in *; [|exact H1].
  intros b x Hin. rewrite process_suggestions_buckets in Hin. now apply H1.
Qed.

Lemma well_bucketed_loop (json_loads : string -> option value)
      (repr : value -> string) (results : list value) (st : aggregated) :
  well_bucketed st -> well_bucketed (aggregate_loop json_loads repr results st).
Proof.
  revert st. induction results as [|r results IH]; intros st Hst; [exact Hst|].
  apply IH. now apply well_bucketed_result.
Qed.

Lemma remove_duplicates_issues (st st' : aggregated) (b : bucket) :
  remove_duplicates st = Ok st' ->
  issues_of b st' = keep_first same_fields (issues_of b st)
  /\ forallb hashable_issue (issues_of b st) = true.
Proof.
  rewrite remove_duplicates_spec. unfold hashable_state.
  destruct (forallb hashable_issue (high_priority st)) eqn:Hh;
    [|discriminate].
  destruct (forallb hashable_issue (medium_priority st)) eqn:Hm;
    [|discriminate].
  destruct (forallb hashable_issue (low_priority st)) eqn:Hl;
    [|discriminate].
  simpl. intros [= <-]. destruct b; simpl; auto.
Qed.

(** X1.  In every report that [_aggregate_reviews] returns, each issue sits
    in the bucket of its own severity: the issues of [high_priority] have a
    text severity that is "high" in some letter case, those of
    [medium_priority] one that is "medium" in some letter case, those of
    [low_priority] any other text or none.  So no issue is in two buckets. *)
Theorem report_is_well_bucketed :
  forall (json_loads : string -> option value) (repr : value -> string)
         (results : list value) (report : aggregated),
    _aggregate_reviews json_loads repr results = Ok report ->
    well_bucketed report
    /\ (forall b1 b2 d,
           In d (issues_of b1 report) -> In d (issues_of b2 report) -> b1 = b2).
Proof.
  intros json_loads repr results report H.
  assert (Hw : well_bucketed report).
  { intros b d Hin. unfold _aggregate_reviews in H.
    destruct (remove_duplicates_issues _ _ b H) as [Hb _].
    rewrite Hb in Hin. apply keep_first_In in Hin.
    assert (Hempty : well_bucketed empty_aggregated)
      by (intros b' d' Hin'; destruct b'; destruct Hin').
    exact (well_bucketed_loop json_loads repr results _ Hempty b d Hin). }
  split; [exact Hw|].
  intros b1 b2 d H1 H2.
  destruct (Hw b1 d H1) as (s1 & Hs1 & <-).
  destruct (Hw b2 d H2) as (s2 & Hs2 & <-).
  congruence.
Qed.

(** ** What the report holds *)

(** X2.  In every report that [_aggregate_reviews] returns, no issue of a
    bucket has the same fields as an issue before it in that bucket, and
    every field value of every issue can be hashed. *)
Theorem report_buckets_hold_no_duplicates :
  forall (json_loads : string -> option value) (repr : value -> string)
         (results : list value) (report : aggregated),
    _aggregate_reviews json_loads repr results = Ok report ->
    forall b pre x post,
      issues_of b report = pre ++ x :: post ->
      (forall y, In y pre -> same_fields x y = false)
      /\ hashable_issue x = true.
Proof.
  intros json_loads repr results report H b pre x post Hsplit.
  unfold _aggregate_reviews in H.
  destruct (remove_duplicates_issues _ _ b H) as [Hb Hhash].
  rewrite Hb in Hsplit. split.
  - pose proof (keep_first_distinct same_fields _ _ _ _ Hsplit) as Hnone.
    intros y Hy. destruct (same_fields x y) eqn:E; [|reflexivity].
    assert (Hex : existsb (same_fields x) pre = true)
      by (apply existsb_exists; eauto).
    congruence.
  - rewrite forallb_forall in Hhash. apply Hhash.
    apply (keep_first_In same_fields). rewrite Hsplit. apply in_elt.
Qed.

(** X3.  The report invents nothing and loses nothing but duplicates: every
    issue of a bucket of the report was put into that bucket by one of the
    results, and every issue that a result puts into a bucket has an issue
    with the same fields in that bucket of the report. *)
Theorem report_issues_come_from_results :
  forall (json_loads : string -> option value) (repr : value -> string)
         (results : list value) (report : aggregated),
    _aggregate_reviews json_loads repr results = Ok report ->
    forall b,
      (forall d, In d (issues_of b report) ->
                 exists r, In r results
                           /\ In d (issues_of b (contribution json_loads repr r)))
      /\ (forall r d, In r results ->
                      In d (issues_of b (contribution json_loads repr r)) ->
                      exists d', In d' (issues_of b report)
                                 /\ same_fields d d' = true).
Proof.
  intros json_loads repr results report H b.
  unfold _aggregate_reviews in H.
  destruct (remove_duplicates_issues _ _ b H) as [Hb Hhash].
  rewrite Hb, aggregate_loop_issues in *. split.
  - intros d Hd. apply keep_first_In in Hd.
    apply in_flat_map in Hd. exact Hd.
  - intros r d Hr Hd.
    assert (Hin : In d (flat_map
                          (fun r => issues_of b (contribution json_loads repr r))
                          results))
      by (apply in_flat_map; eauto).
    rewrite forallb_forall in Hhash.
    assert (Hex : existsb (same_fields d)
                    (keep_first same_fields
                       (flat_map
                          (fun r => issues_of b (contribution json_loads repr r))
                          results)) = true).
    { rewrite (existsb_keep_first same_fields same_fields_trans).
      apply existsb_exists. exists d. split; [exact Hin|].
      apply same_fields_refl. now apply Hhash. }
    apply existsb_exists in Hex. exact Hex.
Qed.

(** ** A result that comes twice *)

Section Absorb.

Context {A : Type} (same : A -> A -> bool).
Hypothesis same_trans :
  forall x y z, same x y = true -> same y z = true -> same x z = true.

(** Elements that all have an equal one among those before them can be
    left out without changing the first occurrences. *)
Lemma keep_first_absorb (before again after : list A) :
  (forall c, In c again -> existsb (same c) before = true) ->
  keep_first same (before ++ again ++ after) = keep_first same (before ++ after).
Proof.
  intros Hagain. rewrite !keep_first_app, filter_app. f_equal.
  assert (Hnone : filter (fun y => negb (existsb (same y) before))
                         (keep_first same again) = []).
  { assert (Hall : forall c, In c (keep_first same again) ->
                             negb (existsb (same c) before) = false).
    { intros c Hc. apply keep_first_In in Hc. now rewrite (Hagain c Hc). }
    induction (keep_first same again) as [|c k IH]; [reflexivity|].
    simpl. rewrite (Hall c (or_introl eq_refl)). apply IH.
    intros c' Hc'. apply Hall. now right. }
  rewrite Hnone. simpl. rewrite filter_twice.
  apply filter_same_pred. intros y _.
  destruct (existsb (same y) before) eqn:Hb; simpl;
    [apply andb_false_r|].
  destruct (existsb (same y) again) eqn:Ha; [|reflexivity].
  apply existsb_exists in Ha. destruct Ha as (c & Hc & Hyc).
  pose proof (Hagain c Hc) as Hcb. apply existsb_exists in Hcb.
  destruct Hcb as (x & Hx & Hcx).
  assert (Hex : existsb (same y) before = true)
    by (apply existsb_exists; exists x; eauto).
  congruence.
Qed.

End Absorb.

Lemma existsb_member {A : Type} (same : A -> A -> bool) (l : list A) (x : A) :
  In x l -> same x x = true -> existsb (same x) l = true.
Proof. intros Hin Hrefl. apply existsb_exists. eauto. Qed.

(** X5.  A result that comes a second time changes nothing: the report, or
    the exception, is the one of the sequence without the second copy. *)
Theorem repeated_result_adds_nothing :
  forall (json_loads : string -> option value) (repr : value -> string)
         (r : value) (before between after : list value),
    _aggregate_reviews json_loads repr (before ++ r :: between ++ r :: after)
    = _aggregate_reviews json_loads repr (before ++ r :: between ++ after).
Proof.
  intros json_loads repr r before between after.
  set (c := contribution json_loads repr r).
  set (x := aggregate_loop json_loads repr (before ++ r :: between) empty_aggregated).
  set (d := aggregate_loop json_loads repr after empty_aggregated).
  assert (E1 : aggregate_loop json_loads repr
                 (before ++ r :: between ++ r :: after) empty_aggregated
               = agg_app x (agg_app c d)).
  { replace (before ++ r :: between ++ r :: after)
      with ((before ++ r :: between) ++ r :: after)
      by (now rewrite <- app_assoc).
    rewrite aggregate_loop_split. fold x.
    now rewrite aggregate_loop_cons, agg_app_empty_l. }
  assert (E2 : aggregate_loop json_loads repr
                 (before ++ r :: between ++ after) empty_aggregated
               = agg_app x d).
  { replace (before ++ r :: between ++ after)
      with ((before ++ r :: between) ++ after)
      by (now rewrite <- app_assoc).
    now rewrite aggregate_loop_split. }
  assert (Ex : exists a b, x = agg_app (agg_app a c) b).
  { exists (aggregate_loop json_loads repr before empty_aggregated),
           (aggregate_loop json_loads repr between empty_aggregated).
    unfold x. rewrite aggregate_loop_split.
    now rewrite aggregate_loop_cons, agg_app_empty_l, <- agg_app_assoc. }
  destruct Ex as (a & b & Ex).
  unfold _aggregate_reviews. rewrite E1, E2. clear E1 E2. clearbody x c d.
  rewrite !remove_duplicates_spec.
  rewrite !hashable_state_agg_app.
  assert (Hc : hashable_state x = true -> hashable_state c = true).
  { rewrite Ex, !hashable_state_agg_app.
    now destruct (hashable_state a), (hashable_state c). }
  destruct (hashable_state x) eqn:Hx; [|reflexivity].
  rewrite (Hc eq_refl). simpl.
  destruct (hashable_state d); [|reflexivity].
  assert (Hissues : forall bk,
             keep_first same_fields (issues_of bk x ++ issues_of bk c ++ issues_of bk d)
             = keep_first same_fields (issues_of bk x ++ issues_of bk d)).
  { intros bk. apply (keep_first_absorb same_fields same_fields_trans).
    intros i Hi. apply existsb_member.
    - rewrite Ex, !issues_of_agg_app. apply in_or_app. left.
      apply in_or_app. now right.
    - apply same_fields_refl.
      assert (Hcb : forallb hashable_issue (issues_of bk c) = true).
      { pose proof (Hc eq_refl) as Hcs. unfold hashable_state in Hcs.
        apply andb_true_iff in Hcs. destruct Hcs as [Hcs Hl].
        apply andb_true_iff in Hcs. destruct Hcs as [Hh Hm].
        now destruct bk. }
      rewrite forallb_forall in Hcb. now apply Hcb. }
  assert (Hsugg :
            keep_first String.eqb (suggestions x ++ suggestions c ++ suggestions d)
            = keep_first String.eqb (suggestions x ++ suggestions d)).
  { apply (keep_first_absorb String.eqb string_eqb_trans).
    intros s Hs. apply existsb_member; [|apply String.eqb_refl].
    rewrite Ex. simpl. apply in_or_app. left. apply in_or_app. now right. }
  f_equal. unfold agg_app. simpl.
  pose proof (Hissues High) as HH. pose proof (Hissues Medium) as HM.
  pose proof (Hissues Low) as HL. simpl in HH, HM, HL.
  now rewrite HH, HM, HL, Hsugg.
Qed.

(** ** Reviewers that fail *)

Lemma failed_review_adds_nothing (json_loads : string -> option value)
      (repr : value -> string) (st : aggregated) :
  try_continue (process_result json_loads repr failed_review) st = st.
Proof.
  rewrite try_continue_contribution.
  change (contribution json_loads repr failed_review) with empty_aggregated.
  apply agg_app_empty_r.
Qed.

(** X7.  The review of a roster is the aggregation of the responses of the
    agents whose call returned: the agents whose call failed change neither
    the report nor whether one is returned.  When every call fails, the
    review is the empty report. *)
Theorem review_code_ignores_failed_agents :
  forall (json_loads : string -> option value) (repr : value -> string)
         (achat : Agent -> string -> call_outcome)
         (self : CodeReviewSwarm) (code_content file_path : string),
    review_code json_loads repr achat self code_content file_path
    = _aggregate_reviews json_loads repr
        (returned_responses achat self code_content file_path)
    /\ ((forall agent, In agent (agents self) ->
           exists message,
             achat agent (review_task code_content file_path) = Failed message) ->
        review_code json_loads repr achat self code_content file_path
        = Ok empty_aggregated).
Proof.
  intros json_loads repr achat self code_content file_path.
  assert (Hloop : forall st,
             aggregate_loop json_loads repr
               (review_results achat self code_content file_path) st
             = aggregate_loop json_loads repr
                 (returned_responses achat self code_content file_path) st).
  { unfold review_results, returned_responses.
    induction (agents self) as [|agent rest IH]; intros st; [reflexivity|].
    simpl. unfold _get_agent_review.
    destruct (achat agent (review_task code_content file_path)) as [response|m].
    - simpl. unfold aggregate_loop in *. simpl. apply IH.
    - simpl. unfold aggregate_loop in *. simpl.
      rewrite failed_review_adds_nothing. apply IH. }
  assert (Hreview :
            review_code json_loads repr achat self code_content file_path
            = _aggregate_reviews json_loads repr
                (returned_responses achat self code_content file_path)).
  { unfold review_code, _aggregate_reviews. now rewrite Hloop. }
  split; [exact Hreview|].
  intros Hfail. rewrite Hreview.
  assert (Hnone : returned_responses achat self code_content file_path = []).
  { unfold returned_responses.
    induction (agents self) as [|agent rest IH]; [reflexivity|].
    simpl. destruct (Hfail agent (or_introl eq_refl)) as [m ->].
    apply IH. intros a Ha. apply Hfail. now right. }
  now rewrite Hnone.
Qed.

(** ** Keys that are missing and issues that are no list *)

(** X10.  A mapping result that has none of the keys [review], [issues]
    and [suggestions] adds nothing and raises nothing. *)
Theorem mapping_without_keys_adds_nothing :
  forall (json_loads : string -> option value) (repr : value -> string)
         (result : value) (d : dict),
    parse json_loads result = VDict d ->
    Py.dict_lookup d "review" = None ->
    Py.dict_lookup d "issues" = None ->
    Py.dict_lookup d "suggestions" = None ->
    forall st, process_result json_loads repr result st = (st, Ok tt).
Proof.
  intros json_loads repr result d Hparse Hr Hi Hs st.
  unfold process_result. rewrite Hparse.
  unfold process_structured, process_issues, process_suggestions,
    Py.get, Py.dict_get, bind, lift.
  rewrite Hr. cbv iota. rewrite Hi, Hs. simpl.
  unfold extend_suggestions. simpl. rewrite app_nil_r. now destruct st.
Qed.

Lemma for_each_no_mapping (items : list value) (st : aggregated) :
  forallb (fun x => negb (Py.isinstance_dict x)) items = true ->
  for_each items classify_issue st = (st, Ok tt).
Proof.
  induction items as [|x items IH]; simpl; intros H; [reflexivity|].
  apply andb_true_iff in H. destruct H as [Hx H].
  unfold bind. destruct x; try discriminate Hx; simpl; now apply IH.
Qed.

Lemma chars_no_mapping (s : string) :
  forallb (fun x => negb (Py.isinstance_dict x)) (Py.chars s) = true.
Proof. induction s as [|c s IH]; simpl; [reflexivity | exact IH]. Qed.

Lemma keys_no_mapping (d : dict) :
  forallb (fun x => negb (Py.isinstance_dict x))
          (map (fun kv : string * value => VStr (fst kv)) d) = true.
Proof. induction d as [|kv d IH]; simpl; [reflexivity | exact IH]. Qed.

(** X11.  When the [issues] value of the unwrapped mapping is no list:
    a text or a mapping is run over, character by character or key by key,
    and gives no issue and no exception; [None], a boolean or an integer
    cannot be run over, the result is given up with [TypeError] and adds
    nothing, its suggestions included. *)
Theorem issues_that_are_no_list :
  forall (json_loads : string -> option value) (repr : value -> string)
         (result : value) (d rd : dict) (v : value),
    parse json_loads result = VDict d ->
    Py.dict_get d "review" (VDict d) = VDict rd ->
    Py.dict_lookup rd "issues" = Some v ->
    (Py.isinstance_str v || Py.isinstance_dict v = true ->
     forall st, process_issues (VDict rd) st = (st, Ok tt))
    /\ (Py.iter v = Raise TypeError ->
        (forall st, process_result json_loads repr result st
                    = (st, Raise TypeError))
        /\ contribution json_loads repr result = empty_aggregated).
Proof.
  intros json_loads repr result d rd v Hparse Hrd Hv.
  assert (Hget : Py.get (VDict rd) "issues" (VList []) = Ok v).
  { unfold Py.get, Py.dict_get. now rewrite Hv. }
  split.
  - intros Hkind st. unfold process_issues, bind, lift. rewrite Hget.
    destruct v; try discriminate Hkind; simpl.
    + apply for_each_no_mapping, chars_no_mapping.
    + apply for_each_no_mapping, keys_no_mapping.
  - intros Hiter.
    assert (Hp : forall st, process_result json_loads repr result st
                            = (st, Raise TypeError)).
    { intros st. unfold process_result. rewrite Hparse.
      unfold process_structured. rewrite Hrd.
      unfold process_issues, bind, lift. now rewrite Hget, Hiter. }
    split; [exact Hp|].
    unfold contribution, try_continue. now rewrite Hp.
Qed.

(** ** Text blobs with one marker missing or the markers in reverse order *)





(** ** Suggestions are never empty *)

Lemma string_of_int_nonempty (i : Decimal.int) :
  NilZero.string_of_int i <> EmptyString.
Proof. destruct i as [d|d]; destruct d; discriminate. Qed.

Lemma py_str_truthy (repr : value -> string) (v : value) :
  (forall x, repr x <> EmptyString) ->
  Py.truthy v = true -> py_str repr v <> EmptyString.
Proof.
  intros Hrepr Hv. destruct v as [|b|n|s|l|d]; simpl in *; auto.
  - discriminate.
  - destruct b; discriminate.
  - apply string_of_int_nonempty.
  - destruct s; discriminate.
Qed.

Lemma process_suggestions_nonempty (repr : value -> string) (review_data : value)
      (st : aggregated) (s : string) :
  (forall x, repr x <> EmptyString) ->
  In s (suggestions (fst (process_suggestions repr review_data st))) ->
  In s (suggestions st) \/ s <> EmptyString.
Proof.
  intros Hrepr. unfold process_suggestions, bind, lift.
  destruct (Py.get review_data "suggestions" (VList [])) as [v|e]; [|auto].
  destruct v; simpl; auto.
  intros Hin. apply in_app_or in Hin. destruct Hin as [Hin|Hin]; [auto|].
  right. apply in_map_iff in Hin. destruct Hin as (x & <- & Hx).
  apply filter_In in Hx. apply py_str_truthy; tauto.
Qed.

Lemma contribution_suggestions_nonempty (json_loads : string -> option value)
      (repr : value -> string) (result : value) (s : string) :
  (forall x, repr x <> EmptyString) ->
  In s (suggestions (contribution json_loads repr result)) -> s <> EmptyString.
Proof.
  intros Hrepr. unfold contribution, try_continue, process_result.
  destruct (parse json_loads result) as [| | | | |d]; try (intros []).
  simpl. unfold bind.
  pose proof (process_issues_suggestions
                (Py.dict_get d "review" (VDict d)) empty_aggregated) as Hi.
  destruct (process_issues (Py.dict_get d "review" (VDict d)) empty_aggregated)
    as [st1 [[]|e]]; simpl in Hi.
  - intros Hin.
    destruct (process_suggestions_nonempty repr _ st1 s Hrepr Hin) as [H|H];
      [|exact H].
    rewrite Hi in H. destruct H.
  - simpl. rewrite Hi. intros [].
Qed.

(** X12.  Provided [repr] never returns the empty text (Python's does
    not): no suggestion of a report is the empty text. *)
Theorem report_holds_no_empty_suggestion :
  forall (json_loads : string -> option value) (repr : value -> string)
         (results : list value) (report : aggregated),
    (forall x, repr x <> EmptyString) ->
    _aggregate_reviews json_loads repr results = Ok report ->
    ~ In EmptyString (suggestions report).
Proof.
  intros json_loads repr results report Hrepr H Hin.
  unfold _aggregate_reviews in H. rewrite remove_duplicates_spec in H.
  destruct (hashable_state _); [|discriminate].
  injection H as <-. simpl in Hin.
  apply keep_first_In in Hin. rewrite aggregate_loop_suggestions in Hin.
  apply in_flat_map in Hin. destruct Hin as (r & _ & Hr).
  now apply (contribution_suggestions_nonempty json_loads repr r _ Hrepr Hr).
Qed.

(** ** The request validators *)

Lemma rstrip_empty_iff (s : string) :
  PyStr.rstrip s = EmptyString <-> all_space s = true.
Proof.
  induction s as [|c s IH]; simpl; [tauto|].
  destruct (PyStr.rstrip s) eqn:E.
  - destruct (PyStr.isspace c); simpl; [tauto|].
    split; discriminate.
  - split; [discriminate|]. intros H.
    apply andb_true_iff in H. destruct H as [_ H].
    apply IH in H. discriminate.
Qed.

Lemma all_space_lstrip (s : string) :
  all_space (PyStr.lstrip s) = all_space s.
Proof.
  induction s as [|c s IH]; simpl; [reflexivity|].
  destruct (PyStr.isspace c) eqn:E; simpl; [exact IH | now rewrite E].
Qed.

Lemma strip_empty_iff (s : string) :
  PyStr.strip s = EmptyString <-> all_space s = true.
Proof.
  unfold PyStr.strip. now rewrite rstrip_empty_iff, all_space_lstrip.
Qed.

(** X13.  [validate_code] raises [ValueError] exactly on the texts made
    of whitespace only, the empty text among them; every other text is
    returned as it is, with the whitespace around it. *)
Theorem validate_code_rejects_blank_code :
  forall v : string,
    (all_space v = true ->
     Api.validate_code v
     = Api.ValueError "Code cannot be empty or whitespace only")
    /\ (all_space v = false -> Api.validate_code v = Api.Valid v).
Proof.
  intros v. unfold Api.validate_code.
  destruct (PyStr.strip v) eqn:E; simpl.
  - apply strip_empty_iff in E. rewrite E. split; [reflexivity | discriminate].
  - destruct (all_space v) eqn:A; [|split; [discriminate | reflexivity]].
    apply strip_empty_iff in A. congruence.
Qed.

Lemma text_split_at (s : string) (n : nat) :
  (n <= String.length s)%nat ->
  exists a b, s = (a ++ b)%string /\ String.length a = n.
Proof.
  revert n. induction s as [|c s IH]; intros [|n] H; simpl in H.
  - exists EmptyString, EmptyString. auto.
  - lia.
  - exists EmptyString, (String c s). auto.
  - destruct (IH n ltac:(lia)) as (a & b & -> & Ha).
    exists (String c a), b. simpl. auto.
Qed.

Lemma substring_tail (a b : string) :
  String.substring (String.length a) (String.length b) (a ++ b)%string = b.
Proof.
  pose proof (substring_middle a b EmptyString) as H.
  now rewrite text_app_empty_r in H.
Qed.

Lemma endswith_iff (s suffix : string) :
  Api.endswith s suffix = true <-> exists stem, s = (stem ++ suffix)%string.
Proof.
  unfold Api.endswith. split.
  - intros H. apply andb_true_iff in H. destruct H as [Hlen Heq].
    apply Nat.leb_le in Hlen. apply String.eqb_eq in Heq.
    destruct (text_split_at s (String.length s - String.length suffix) ltac:(lia))
      as (a & b & -> & Ha).
    rewrite text_length_app in *.
    replace (String.length a + String.length b - String.length suffix)%nat
      with (String.length a) in Heq by lia.
    replace (String.length suffix) with (String.length b) in Heq at 1 by lia.
    rewrite substring_tail in Heq. subst b. now exists a.
  - intros [stem ->]. rewrite text_length_app.
    replace (String.length stem + String.length suffix - String.length suffix)%nat
      with (String.length stem) by lia.
    rewrite substring_tail, String.eqb_refl, andb_true_r.
    apply Nat.leb_le. lia.
Qed.

(** X14.  [validate_file_path] returns the path, unchanged, exactly when
    the path is some text followed by one of the six extensions, written in
    small letters; on every other path it raises [ValueError]. *)
Theorem validate_file_path_accepts_listed_extensions :
  forall v : string,
    ((exists stem ext, In ext Api.extensions /\ v = (stem ++ ext)%string)
     <-> Api.validate_file_path v = Api.Valid v)
    /\ (Api.validate_file_path v = Api.Valid v
        \/ Api.validate_file_path v
           = Api.ValueError
               "Unsupported file type. Must be one of: .py, .js, .ts, .java, .cpp, .go").
Proof.
  intros v. unfold Api.validate_file_path.
  destruct (existsb (Api.endswith v) Api.extensions) eqn:E; simpl.
  - split; [|now left]. split; [intros _; reflexivity | intros _].
    apply existsb_exists in E. destruct E as (ext & Hext & Hend).
    apply endswith_iff in Hend. destruct Hend as [stem ->].
    exists stem, ext. auto.
  - split; [|now right]. split; [|discriminate].
    intros (stem & ext & Hext & ->).
    assert (Hex : existsb (Api.endswith (stem ++ ext)%string) Api.extensions = true).
    { apply existsb_exists. exists ext. split; [exact Hext|].
      apply endswith_iff. eauto. }
    congruence.
Qed.

(** ** Instances *)

Lemma report_is_well_bucketed_witness :
  let results := [VDict [("issues", VList [Samples.issue_high;
                                           VDict [("description", VStr "Style")]])]]%string in
  exists report,
    _aggregate_reviews Samples.no_json Samples.no_repr results = Ok report
    /\ well_bucketed report.
Proof.
  intros results. eexists. split; [vm_compute; reflexivity|].
  apply (report_is_well_bucketed Samples.no_json Samples.no_repr results).
  vm_compute; reflexivity.
Defined.

Lemma report_buckets_hold_no_duplicates_witness :
  let results := [VDict [("issues", VList [Samples.issue_high; Samples.issue_high;
                                           VDict [("severity", VStr "High")]])]]%string in
  (forall y, In y [[("description", VStr "No input validation");
                    ("severity", VStr "high"); ("line", VInt 3)]%string] ->
             same_fields [("severity", VStr "High")]%string y = false)
  /\ hashable_issue [("severity", VStr "High")]%string = true.
Proof.
  intros results.
  eapply (report_buckets_hold_no_duplicates
            Samples.no_json Samples.no_repr results _ ltac:(vm_compute; reflexivity)
            High _ _ []).
  vm_compute; reflexivity.
Defined.

Lemma report_issues_come_from_results_witness :
  let results := [VDict [("issues", VList [Samples.issue_high])];
                  VDict [("issues", VList [Samples.issue_high])]]%string in
  let issue := [("description", VStr "No input validation");
                ("severity", VStr "high"); ("line", VInt 3)]%string in
  exists r, In r results
            /\ In issue (issues_of High
                           (contribution Samples.no_json Samples.no_repr r)).
Proof.
  intros results issue.
  apply (proj1 (report_issues_come_from_results
                  Samples.no_json Samples.no_repr results
                  (mkAggregated [issue] [] [] [])
                  ltac:(vm_compute; reflexivity) High) issue).
  simpl. now left.
Defined.



Lemma mapping_without_keys_adds_nothing_witness :
  process_result Samples.no_json Samples.no_repr
    (VDict [("invalid", VStr "data")]%string) empty_aggregated
  = (empty_aggregated, Ok tt).
Proof.
  apply (mapping_without_keys_adds_nothing
           Samples.no_json Samples.no_repr _ [("invalid", VStr "data")]%string);
    reflexivity.
Defined.

Lemma issues_that_are_no_list_witness :
  let no_issues := VDict [("issues", VNone);
                          ("suggestions", VList [VStr "Add tests"])]%string in
  let text_issues := [("issues", VStr "none")]%string in
  contribution Samples.no_json Samples.no_repr no_issues = empty_aggregated
  /\ process_issues (VDict text_issues) empty_aggregated = (empty_aggregated, Ok tt).
Proof.
  intros no_issues text_issues. split.
  - exact (proj2 (proj2 (issues_that_are_no_list
                           Samples.no_json Samples.no_repr no_issues _ _ VNone
                           eq_refl eq_refl eq_refl) eq_refl)).
  - exact (proj1 (issues_that_are_no_list
                    Samples.no_json Samples.no_repr (VDict text_issues) _ _
                    (VStr "none") eq_refl eq_refl eq_refl) eq_refl empty_aggregated).
Defined.

Lemma report_holds_no_empty_suggestion_witness :
  let results := [VDict [("suggestions",
                          VList [VStr ""; VStr "Add tests"; VInt 0; VList []])]]%string in
  ~ In EmptyString ["Add tests"]%string.
Proof.
  intros results.
  apply (report_holds_no_empty_suggestion
           Samples.no_json (fun _ => "[...]"%string) results
           (mkAggregated [] [] [] ["Add tests"]%string)).
  - intros x. discriminate.
  - vm_compute; reflexivity.
Defined.

Lemma review_code_ignores_failed_agents_witness :
  review_code Samples.no_json Samples.no_repr (fun _ _ => Failed "down")
              new_swarm "x = 1" "a.py"
  = Ok empty_aggregated.
Proof.
  apply (proj2 (review_code_ignores_failed_agents
                  Samples.no_json Samples.no_repr (fun _ _ => Failed "down")
                  new_swarm "x = 1" "a.py")).
  intros agent _. exists "down"%string. reflexivity.
Defined.

Lemma validate_code_rejects_blank_code_witness :
  Api.validate_code (String PyStr.newline "  ")
  = Api.ValueError "Code cannot be empty or whitespace only"
  /\ Api.validate_code " x = 1 " = Api.Valid " x = 1 ".
Proof.
  split.
  - apply (proj1 (validate_code_rejects_blank_code (String PyStr.newline "  "))).
    vm_compute; reflexivity.
  - apply (proj2 (validate_code_rejects_blank_code " x = 1 ")).
    vm_compute; reflexivity.
Defined.

Lemma validate_file_path_accepts_listed_extensions_witness :
  Api.validate_file_path "src/app.py" = Api.Valid "src/app.py"
  /\ Api.validate_file_path ".go" = Api.Valid ".go".
Proof.
  split.
  - apply (proj1 (validate_file_path_accepts_listed_extensions "src/app.py")).
    exists "src/app"%string, ".py"%string. split; [simpl; tauto | reflexivity].
  - apply (proj1 (validate_file_path_accepts_listed_extensions ".go")).
    exists EmptyString, ".go"%string. split; [simpl; tauto | reflexivity].
Defined.
